(** * gaze-data-collection: target rendering and the per-trial state machine

    A shallow embedding of [utils.py] and [main.py].

    Conventions of the embedding.
    - Python [int] is [Z]; Python [float] (the shrink factor, the random
      draws, clock readings, pixel channels) is an exact rational [Q], so
      [*], [-], [<] and [int(...)] are the exact operations.  The render
      step, whose flag depends on the rounding of [random.uniform], is
      embedded a second time over IEEE binary64 numbers ([Binary64]).
    - The global state the program touches (the [random] module, the
      keyboard behind [cv2.waitKey], the wall clock, the webcam, the
      windows and files it writes) is threaded explicitly: the inputs are
      read from a script [Env] through cursors kept in [World], the
      outputs are appended to [trace].
    - [cv2.circle], [cv2.putText] and [cv2.getTextSize] belong to OpenCV;
      they are parameters ([Drawing]).  They draw in place, so they act on
      the pixel data of an array and cannot change its shape.  Colours are
      written in OpenCV's channel order: blue, green, red.
    - The webcam ([WebcamSource], from [webcam.py]) is a collaborator: the
      calls made to it are events of the trace.
    - Unbounded [while] loops take a fuel argument; running dry is the
      distinguished outcome [OutOfFuel]. *)

From Stdlib Require Import ZArith QArith Qround List String Ascii Bool Lia.
From Stdlib Require Import Floats.

#[local] Set Warnings "-inexact-float".
Import ListNotations.

Local Open Scope string_scope.
Local Open Scope Z_scope.

(** ** Python built-ins used by the program *)

Module Py.

(** [ord(c)] *)
Definition ord (c : ascii) : Z := Z.of_nat (nat_of_ascii c).

(** [int(x)] on a float: truncation toward zero. *)
Definition int (x : Q) : Z := Z.quot (Qnum x) (Zpos (Qden x)).

(** [x < y] on floats. *)
Definition lt (x y : Q) : bool := negb (Qle_bool y x).

(** [x is not None] *)
Definition is_not_None {A : Type} (x : option A) : bool :=
  match x with Some _ => true | None => false end.

(** [x is None] *)
Definition is_None {A : Type} (x : option A) : bool :=
  negb (is_not_None x).

(** The text an f-string substitutes for [{x}] when [x] is a string or
    [None]. *)
Definition format (x : option string) : string :=
  match x with Some s => s | None => "None" end.

End Py.

(** ** Arrays and the OpenCV operations on them *)

(** One pixel of a three-channel [float32] image.  OpenCV's channel order
    is blue, green, red: that is how [cv2.imshow] reads the array. *)
Definition Pixel : Type := (Q * Q * Q)%type.

(** A colour as the program writes it: a tuple of three ints handed to
    OpenCV, read there in the image's channel order. *)
Definition Color : Type := (Z * Z * Z)%type.

Definition blue_channel (c : Color) : Z := fst (fst c).
Definition green_channel (c : Color) : Z := snd (fst c).
Definition red_channel (c : Color) : Z := snd c.

(** What a viewer of the displayed frame calls the colour: blue when the
    blue channel dominates, orange when red > green > blue. *)
Definition displays_blue (c : Color) : bool :=
  (red_channel c <? green_channel c) && (green_channel c <? blue_channel c).
Definition displays_orange (c : Color) : bool :=
  (blue_channel c <? green_channel c) && (green_channel c <? red_channel c).

(** An array of shape [(rows, cols, 3)].  [px r c] is the pixel in row [r],
    column [c]; it is meaningful for [0 <= r < rows], [0 <= c < cols]. *)
Record ndarray : Type := mk_ndarray {
  rows : Z;
  cols : Z;
  px : Z -> Z -> Pixel
}.

(** [img.shape] *)
Definition shape (img : ndarray) : Z * Z * Z := (rows img, cols img, 3).

(** Two arrays are the same image when they have the same shape and the
    same pixels inside it. *)
Definition same_image (a b : ndarray) : Prop :=
  shape a = shape b /\
  forall r c, 0 <= r < rows a -> 0 <= c < cols a -> px a r c = px b r c.

Definition zero_pixel : Pixel := (0%Q, 0%Q, 0%Q).

(** [np.zeros((n, m, 3), np.float32)], for non-negative [n] and [m]. *)
Definition np_zeros (n m : Z) : ndarray :=
  mk_ndarray n m (fun _ _ => zero_pixel).

(** [cv2.flip(img, 1)]: flip around the vertical axis. *)
Definition cv2_flip_1 (img : ndarray) : ndarray :=
  mk_ndarray (rows img) (cols img) (fun r c => px img r (cols img - 1 - c)).

(** [cv2.flip(img, 0)]: flip around the horizontal axis (not called by the
    program; used to state how UP and DOWN frames relate). *)
Definition cv2_flip_0 (img : ndarray) : ndarray :=
  mk_ndarray (rows img) (cols img) (fun r c => px img (rows img - 1 - r) c).

(** [img.transpose((1, 0, 2))] *)
Definition transpose_1_0_2 (img : ndarray) : ndarray :=
  mk_ndarray (cols img) (rows img) (fun r c => px img c r).

Definition pixel_div (p : Pixel) (k : Q) : Pixel :=
  let '(b, g, r) := p in ((b / k)%Q, (g / k)%Q, (r / k)%Q).

(** [img / k] *)
Definition ndarray_div (img : ndarray) (k : Q) : ndarray :=
  mk_ndarray (rows img) (cols img) (fun r c => pixel_div (px img r c) k).

(** The OpenCV drawing primitives, with the arguments the program fixes
    ([FONT], [TEXT_SCALE], [TEXT_THICKNESS], [-1] for a filled circle,
    [LINE_AA]) folded in.  Points are [(x, y)] = (column, row).  Each
    painter receives the array's dimensions and pixel data and returns the
    new pixel data. *)
Record Drawing : Type := mk_Drawing {
  (** [cv2.getTextSize(text, FONT, TEXT_SCALE, TEXT_THICKNESS)[0]]:
      [(width, height)] *)
  getTextSize : string -> Z * Z;
  (** [cv2.circle(img, center, radius, color, -1)] *)
  circle_data : Z -> Z -> (Z -> Z -> Pixel) -> Z * Z -> Z -> Color ->
                Z -> Z -> Pixel;
  (** [cv2.putText(img, text, org, FONT, TEXT_SCALE, color,
      TEXT_THICKNESS, cv2.LINE_AA)] *)
  putText_data : Z -> Z -> (Z -> Z -> Pixel) -> string -> Z * Z -> Color ->
                 Z -> Z -> Pixel
}.

Definition cv2_circle (cv : Drawing) (img : ndarray) (center : Z * Z)
    (radius : Z) (color : Color) : ndarray :=
  mk_ndarray (rows img) (cols img)
    (circle_data cv (rows img) (cols img) (px img) center radius color).

Definition cv2_putText (cv : Drawing) (img : ndarray) (text : string)
    (org : Z * Z) (color : Color) : ndarray :=
  mk_ndarray (rows img) (cols img)
    (putText_data cv (rows img) (cols img) (px img) text org color).

(** ** The enumeration of orientations *)

Inductive TargetOrientation : Type := UP | DOWN | LEFT | RIGHT.

(** [orientation.value] *)
Definition value (o : TargetOrientation) : Z :=
  match o with
  | UP => 82
  | DOWN => 84
  | LEFT => 81
  | RIGHT => 83
  end.

(** [list(TargetOrientation)]: the members in definition order. *)
Definition list_TargetOrientation : list TargetOrientation :=
  [UP; DOWN; LEFT; RIGHT].

Definition TargetOrientation_eqb (a b : TargetOrientation) : bool :=
  match a, b with
  | UP, UP | DOWN, DOWN | LEFT, LEFT | RIGHT, RIGHT => true
  | _, _ => false
  end.

(** ** The environment and the world *)

(** What [get_monitor_dimensions] finds when it tries to load Gdk. *)
Inductive Gdk : Type :=
| Gdk_ModuleNotFound
    (** an import raises [ModuleNotFoundError] *)
| Gdk_raises (exception_name : string)
    (** a Gdk call raises any other exception *)
| Gdk_monitor (w_mm h_mm w_pixels h_pixels : Z)
    (** the default screen reports these dimensions *).

(** The inputs the program reads, one script per source.  The [n]-th call
    of an operation returns the [n]-th entry of its script. *)
Record Env : Type := mk_Env {
  (** results of [random.random()], each in the range [0.0 <= r < 1.0] *)
  script_random : nat -> Q;
  (** index draws behind [random.choice] *)
  script_randbelow : nat -> nat;
  (** results of [cv2.waitKey]; [-1] when no key was pressed *)
  script_waitKey : nat -> Z;
  (** results of [time.time()] *)
  script_time : nat -> Q;
  (** results of [datetime.now().strftime("%Y_%m_%d-%H_%M_%S")] *)
  script_strftime : nat -> string;
  (** frames returned by [next(source)] *)
  script_frames : nat -> ndarray;
  (** the state of Gdk on this machine *)
  gdk : Gdk
}.

(** One row set of [collected_data]: the five columns. *)
Record DataFrame : Type := mk_DataFrame {
  col_file_name : list string;
  col_point_on_screen : list (Z * Z);
  col_time_till_capture : list Q;
  col_monitor_mm : list (Z * Z);
  col_monitor_pixels : list (Z * Z)
}.

(** The effects the program has on its surroundings. *)
Inductive Event : Type :=
| Mkdir (path : string)
| PrintFound (monitor_mm monitor_pixels : Z * Z)
| NamedWindow (window_name : string)
| SetWindowProperty (window_name : string)
| ImShow (window_name : string) (image : ndarray)
| DestroyAllWindows
| ClearFrameBuffer
| NextFrame
| ImWrite (path : string) (image : ndarray)
| ToCsv (path : string) (data : DataFrame).

(** How far each script has been read, and what has been done so far
    (oldest event first). *)
Record World : Type := mk_World {
  n_random : nat;
  n_randbelow : nat;
  n_waitKey : nat;
  n_time : nat;
  n_strftime : nat;
  n_frames : nat;
  trace : list Event
}.

Definition initial_world : World := mk_World 0 0 0 0 0 0 [].

Definition use_random (w : World) : World :=
  mk_World (S (n_random w)) (n_randbelow w) (n_waitKey w) (n_time w)
           (n_strftime w) (n_frames w) (trace w).
Definition use_randbelow (w : World) : World :=
  mk_World (n_random w) (S (n_randbelow w)) (n_waitKey w) (n_time w)
           (n_strftime w) (n_frames w) (trace w).
Definition use_waitKey (w : World) : World :=
  mk_World (n_random w) (n_randbelow w) (S (n_waitKey w)) (n_time w)
           (n_strftime w) (n_frames w) (trace w).
Definition use_time (w : World) : World :=
  mk_World (n_random w) (n_randbelow w) (n_waitKey w) (S (n_time w))
           (n_strftime w) (n_frames w) (trace w).
Definition use_strftime (w : World) : World :=
  mk_World (n_random w) (n_randbelow w) (n_waitKey w) (n_time w)
           (S (n_strftime w)) (n_frames w) (trace w).
Definition use_frames (w : World) : World :=
  mk_World (n_random w) (n_randbelow w) (n_waitKey w) (n_time w)
           (n_strftime w) (S (n_frames w)) (trace w).
Definition emit (e : Event) (w : World) : World :=
  mk_World (n_random w) (n_randbelow w) (n_waitKey w) (n_time w)
           (n_strftime w) (n_frames w) (trace w ++ [e]).

(** ** The monad of the program: state, process exit, exceptions, fuel *)

Inductive Exception : Type :=
| ValueError (message : string)
| OtherException (name : string).

Inductive Outcome (A : Type) : Type :=
| Ret (a : A) (w : World)              (** ran to completion *)
| SysExit (w : World)                  (** [sys.exit()] *)
| Raised (e : Exception) (w : World)   (** uncaught exception *)
| OutOfFuel.                           (** a loop outlived its fuel *)

Arguments Ret {A} a w.
Arguments SysExit {A} w.
Arguments Raised {A} e w.
Arguments OutOfFuel {A}.

Definition M (A : Type) : Type := World -> Outcome A.

Definition ret {A : Type} (a : A) : M A := fun w => Ret a w.

Definition bind {A B : Type} (m : M A) (k : A -> M B) : M B :=
  fun w =>
    match m w with
    | Ret a w' => k a w'
    | SysExit w' => SysExit w'
    | Raised e w' => Raised e w'
    | OutOfFuel => OutOfFuel
    end.

Declare Scope prog_scope.
Delimit Scope prog_scope with prog.
Notation "x <- m ;; k" := (bind m (fun x => k))
  (at level 61, m at next level, right associativity) : prog_scope.
Notation "' pat <- m ;; k" := (bind m (fun x => match x with pat => k end))
  (at level 61, pat pattern, m at next level, right associativity) : prog_scope.
Notation "m ;; k" := (bind m (fun _ => k))
  (at level 61, right associativity) : prog_scope.
Local Open Scope prog_scope.

Definition sys_exit {A : Type} : M A := fun w => SysExit w.
Definition raise {A : Type} (e : Exception) : M A := fun w => Raised e w.
Definition out_of_fuel {A : Type} : M A := fun _ => OutOfFuel.
Definition perform (e : Event) : M unit := fun w => Ret tt (emit e w).

Section Program.

Variable cv : Drawing.
Variable env : Env.

(** *** Library calls that read the environment *)

(** [random.random()] *)
Definition random_random : M Q :=
  fun w => Ret (script_random env (n_random w)) (use_random w).

(** [random.uniform(a, b)], which is [a + (b - a) * random()]. *)
Definition random_uniform (a b : Q) : M Q :=
  r <- random_random ;;
  ret (a + (b - a) * r)%Q.

(** [random.choice(seq)], which is [seq[randbelow(len(seq))]]; an empty
    [seq] raises [IndexError]. *)
Definition random_choice {A : Type} (seq : list A) : M A :=
  match seq with
  | [] => raise (OtherException "IndexError")
  | d :: _ =>
      fun w =>
        let i := (script_randbelow env (n_randbelow w)
                  mod List.length seq)%nat in
        Ret (nth i seq d) (use_randbelow w)
  end.

(** [cv2.waitKey(delay)] *)
Definition cv2_waitKey (delay : Z) : M Z :=
  fun w => Ret (script_waitKey env (n_waitKey w)) (use_waitKey w).

(** [time.time()] *)
Definition time_time : M Q :=
  fun w => Ret (script_time env (n_time w)) (use_time w).

(** [datetime.now().strftime("%Y_%m_%d-%H_%M_%S")] *)
Definition datetime_now_strftime : M string :=
  fun w => Ret (script_strftime env (n_strftime w)) (use_strftime w).

(** [WebcamSource] comes from [webcam.py], which is not part of the sources
    embedded here: its two operations are recorded in the trace, and the
    frames it hands out are read from the environment. *)

(** [source.clear_frame_buffer()] *)
Definition source_clear_frame_buffer : M unit := perform ClearFrameBuffer.

(** [next(source)] *)
Definition source_next : M ndarray :=
  fun w => Ret (script_frames env (n_frames w)) (emit NextFrame (use_frames w)).

Definition cv2_imshow (window_name : string) (image : ndarray) : M unit :=
  perform (ImShow window_name image).
Definition cv2_destroyAllWindows : M unit := perform DestroyAllWindows.
Definition cv2_imwrite (path : string) (image : ndarray) : M unit :=
  perform (ImWrite path image).

(** *** utils.py *)

(** [get_monitor_dimensions]: only [ModuleNotFoundError] is caught. *)
Definition get_monitor_dimensions : M (option (Z * Z) * option (Z * Z)) :=
  match gdk env with
  | Gdk_monitor w_mm h_mm w_pixels h_pixels =>
      ret (Some (w_mm, h_mm), Some (w_pixels, h_pixels))
  | Gdk_ModuleNotFound => ret (None, None)
  | Gdk_raises name => raise (OtherException name)
  end.

Definition GRAY : Color := (32, 32, 32).
Definition COLOR_RUNNING : Color := (17, 112, 170).
Definition COLOR_LAST_FRAME : Color := (252, 125, 11).

(** [write_text_on_image]: the array is drawn on in place, so the
    updated array is returned next to the flag. *)
Definition write_text_on_image (center : Z * Z) (circle_scale : Q)
    (img : ndarray) (target : string) : M (bool * ndarray) :=
  let text_size := getTextSize cv target in
  let img := cv2_circle cv img center
               (Py.int (inject_Z (fst text_size * 5) * circle_scale)%Q) GRAY in
  let text_origin :=
    (fst center - fst text_size / 2, snd center + snd text_size / 2) in
  t <- random_uniform (1 # 10) (1 # 2) ;;
  let end_animation_loop := Py.lt circle_scale t in
  if negb end_animation_loop
  then ret (end_animation_loop,
            cv2_putText cv img target text_origin COLOR_RUNNING)
  else ret (end_animation_loop,
            cv2_putText cv img target text_origin COLOR_LAST_FRAME).

Definition create_image (monitor_pixels : Z * Z) (center : Z * Z)
    (circle_scale : Q) (orientation : TargetOrientation) (target : string)
    : M (ndarray * Q * bool) :=
  let '(width, height) := monitor_pixels in
  match orientation with
  | LEFT | RIGHT =>
      let img := np_zeros height width in
      let center :=
        if TargetOrientation_eqb orientation LEFT
        then (width - fst center, snd center) else center in
      '(end_animation_loop, img) <-
        write_text_on_image center circle_scale img target ;;
      let img :=
        if TargetOrientation_eqb orientation LEFT
        then cv2_flip_1 img else img in
      ret (ndarray_div img 255, (circle_scale * (9 # 10))%Q,
           end_animation_loop)
  | UP | DOWN =>
      let img := np_zeros width height in
      let center := (snd center, fst center) in
      let center :=
        if TargetOrientation_eqb orientation UP
        then (height - fst center, snd center) else center in
      '(end_animation_loop, img) <-
        write_text_on_image center circle_scale img target ;;
      let img :=
        if TargetOrientation_eqb orientation UP
        then cv2_flip_1 img else img in
      let img := transpose_1_0_2 img in
      ret (ndarray_div img 255, (circle_scale * (9 # 10))%Q,
           end_animation_loop)
  end.

Definition get_random_position_on_screen (monitor_pixels : Z * Z)
    : M (Z * Z) :=
  u <- random_uniform 0 1 ;;
  v <- random_uniform 0 1 ;;
  ret (Py.int (u * inject_Z (fst monitor_pixels))%Q,
       Py.int (v * inject_Z (snd monitor_pixels))%Q).

(** The body of [for _ in range(n)] in the animation loop: poll the
    keyboard, leave the process on [q]. *)
Fixpoint poll_for_quit (n : nat) : M unit :=
  match n with
  | O => ret tt
  | S n' =>
      key <- cv2_waitKey 50 ;;
      if Z.land key 255 =? Py.ord "q"
      then cv2_destroyAllWindows ;; sys_exit
      else poll_for_quit n'
  end.

(** [while not end_animation_loop: ...] *)
Fixpoint animation_loop (fuel : nat) (window_name : string)
    (monitor_pixels center : Z * Z) (orientation : TargetOrientation)
    (circle_scale : Q) (end_animation_loop : bool) : M (Q * bool) :=
  if negb end_animation_loop then
    match fuel with
    | O => out_of_fuel
    | S fuel' =>
        '(image, circle_scale, end_animation_loop) <-
          create_image monitor_pixels center circle_scale orientation "E" ;;
        cv2_imshow window_name image ;;
        poll_for_quit 10 ;;
        animation_loop fuel' window_name monitor_pixels center orientation
                       circle_scale end_animation_loop
    end
  else ret (circle_scale, end_animation_loop).

(** [while time.time() - start_time_color_change < 0.5: ...]; the result
    is the value of [time_till_capture] when the loop is left. *)
Fixpoint capture_loop (fuel : nat) (base_path file_name : string)
    (orientation : TargetOrientation) (start_time_color_change : Q)
    : M (option Q) :=
  now <- time_time ;;
  if Py.lt (now - start_time_color_change) (1 # 2) then
    match fuel with
    | O => out_of_fuel
    | S fuel' =>
        key <- cv2_waitKey 42 ;;
        if Z.land key 255 =? value orientation then
          source_clear_frame_buffer ;;
          frame <- source_next ;;
          cv2_imwrite (base_path ++ "/" ++ file_name ++ ".jpg") frame ;;
          now <- time_time ;;
          ret (Some (now - start_time_color_change)%Q)
        else
          capture_loop fuel' base_path file_name orientation
                       start_time_color_change
    end
  else ret None.

(** [if end_animation_loop: ...]: the capture window.  The result is the
    pair of [file_name] and [time_till_capture] after the block. *)
Definition capture_window (fuel : nat) (base_path : string)
    (orientation : TargetOrientation) (end_animation_loop : bool)
    (file_name : option string) (time_till_capture : option Q)
    : M (option string * option Q) :=
  if end_animation_loop then
    stamp <- datetime_now_strftime ;;
    start_time_color_change <- time_time ;;
    time_till_capture <-
      capture_loop fuel base_path stamp orientation start_time_color_change ;;
    ret (Some stamp, time_till_capture)
  else ret (file_name, time_till_capture).

(** The end of a trial: the blank frame, the settle delay, the result. *)
Definition finish_trial (window_name : string) (monitor_pixels center : Z * Z)
    (file_name : option string) (time_till_capture : option Q)
    : M (option string * (Z * Z) * option Q) :=
  cv2_imshow window_name
    (np_zeros (snd monitor_pixels) (fst monitor_pixels)) ;;
  _ <- cv2_waitKey 500 ;;
  ret (Some (Py.format file_name ++ ".jpg"), center, time_till_capture).

Definition show_point_on_screen (fuel : nat) (window_name base_path : string)
    (monitor_pixels : Z * Z) : M (option string * (Z * Z) * option Q) :=
  let circle_scale := 1%Q in
  center <- get_random_position_on_screen monitor_pixels ;;
  let end_animation_loop := false in
  orientation <- random_choice list_TargetOrientation ;;
  let file_name := @None string in
  let time_till_capture := @None Q in
  '(circle_scale, end_animation_loop) <-
    animation_loop fuel window_name monitor_pixels center orientation
                   circle_scale end_animation_loop ;;
  '(file_name, time_till_capture) <-
    capture_window fuel base_path orientation end_animation_loop
                   file_name time_till_capture ;;
  finish_trial window_name monitor_pixels center file_name time_till_capture.

(** *** main.py *)

Definition WINDOW_NAME : string := "data collection".

Definition empty_data : DataFrame := mk_DataFrame [] [] [] [] [].

(** The five [append] calls on [collected_data]. *)
Definition append_sample (d : DataFrame) (file_name : string)
    (center : Z * Z) (time_till_capture : Q) (monitor_mm monitor_pixels : Z * Z)
    : DataFrame :=
  mk_DataFrame (col_file_name d ++ [file_name])
               (col_point_on_screen d ++ [center])
               (col_time_till_capture d ++ [time_till_capture])
               (col_monitor_mm d ++ [monitor_mm])
               (col_monitor_pixels d ++ [monitor_pixels]).

(** [file_name is not None and time_till_capture is not None] *)
Definition persistence_guard (file_name : option string)
    (time_till_capture : option Q) : bool :=
  Py.is_not_None file_name && Py.is_not_None time_till_capture.

(** The [while True:] loop of [main]; [trial_fuel] bounds the loops of
    each trial, [fuel] the number of trials. *)
Fixpoint session_loop (fuel trial_fuel : nat) (base_path : string)
    (monitor_mm monitor_pixels : Z * Z) (collected_data : DataFrame)
    : M unit :=
  match fuel with
  | O => out_of_fuel
  | S fuel' =>
      '(file_name, center, time_till_capture) <-
        show_point_on_screen trial_fuel WINDOW_NAME base_path monitor_pixels ;;
      collected_data <-
        (if persistence_guard file_name time_till_capture then
           match file_name, time_till_capture with
           | Some f, Some t =>
               let d := append_sample collected_data f center t
                          monitor_mm monitor_pixels in
               perform (ToCsv (base_path ++ "/data.csv") d) ;;
               ret d
           | _, _ => ret collected_data
           end
         else ret collected_data) ;;
      key <- cv2_waitKey 500 ;;
      if Z.land key 255 =? Py.ord "q"
      then cv2_destroyAllWindows ;; ret tt
      else session_loop fuel' trial_fuel base_path monitor_mm monitor_pixels
                        collected_data
  end.

Definition main (fuel trial_fuel : nat) (base_path : string)
    (monitor_mm monitor_pixels : option (Z * Z)) : M unit :=
  perform (Mkdir (base_path ++ "/")) ;;
  _ <- source_next ;;
  '(monitor_mm, monitor_pixels) <-
    (if Py.is_None monitor_mm || Py.is_None monitor_pixels then
       '(monitor_mm, monitor_pixels) <- get_monitor_dimensions ;;
       if Py.is_None monitor_mm || Py.is_None monitor_pixels
       then raise (ValueError
         "Please supply monitor dimensions manually as they could not be retrieved.")
       else ret (monitor_mm, monitor_pixels)
     else ret (monitor_mm, monitor_pixels)) ;;
  match monitor_mm, monitor_pixels with
  | Some mm, Some pixels =>
      perform (PrintFound mm pixels) ;;
      perform (NamedWindow WINDOW_NAME) ;;
      perform (SetWindowProperty WINDOW_NAME) ;;
      session_loop fuel trial_fuel base_path mm pixels empty_data
  | _, _ => raise (OtherException "TypeError")
  end.

End Program.

(** ** Instances for running the program on concrete inputs *)

(** A small rasteriser standing in for OpenCV.  A character is one pixel
    wide and one pixel high; a filled circle is the set of pixels within
    the radius of the centre; text is painted from its origin to the right,
    one pixel per character.  Nothing is painted outside the array. *)
Module Raster.

Definition pixel_of_color (c : Color) : Pixel :=
  (inject_Z (blue_channel c), inject_Z (green_channel c),
   inject_Z (red_channel c)).

Definition inside (n m r c : Z) : bool :=
  (0 <=? r) && (r <? n) && (0 <=? c) && (c <? m).

Definition getTextSize (text : string) : Z * Z :=
  (Z.of_nat (String.length text), 1).

Definition circle_data (n m : Z) (data : Z -> Z -> Pixel) (center : Z * Z)
    (radius : Z) (color : Color) (r c : Z) : Pixel :=
  let dx := c - fst center in
  let dy := r - snd center in
  if inside n m r c && (dx * dx + dy * dy <=? radius * radius)
  then pixel_of_color color else data r c.

Definition putText_data (n m : Z) (data : Z -> Z -> Pixel) (text : string)
    (org : Z * Z) (color : Color) (r c : Z) : Pixel :=
  if inside n m r c && (r =? snd org) && (fst org <=? c)
     && (c <? fst org + Z.of_nat (String.length text))
  then pixel_of_color color else data r c.

Definition drawing : Drawing :=
  mk_Drawing getTextSize circle_data putText_data.

End Raster.

(** Scripted environments.  The first two random draws place the target a
    quarter of the way across and half of the way down; every later draw is
    [99/100], so the threshold is [0.496] and the animation ends on its
    eighth frame (the first with a shrink factor below it, [0.9^7]); the
    clock is read at [100 s] and advances [0.05 s] per reading; the
    orientation drawn is [RIGHT] (index 3). *)
Module Scenario.

Definition random (n : nat) : Q :=
  match n with
  | O => 1 # 4
  | S O => 1 # 2
  | _ => 99 # 100
  end.

Definition clock (n : nat) : Q := (100 + inject_Z (Z.of_nat n) * (1 # 20))%Q.

Definition frame (n : nat) : ndarray :=
  mk_ndarray 1 1 (fun _ _ => let v := inject_Z (Z.of_nat n) in (v, v, v)).

Definition stamp : string := "2021_03_04-05_06_07".

(** No key is ever pressed, except [key] at the [at_poll]-th call of
    [cv2.waitKey]. *)
Definition press (key : Z) (at_poll : nat) (n : nat) : Z :=
  if Nat.eqb n at_poll then key else -1.

Definition env (keys : nat -> Z) (g : Gdk) : Env :=
  mk_Env random (fun _ => 3%nat) keys clock (fun _ => stamp) frame g.

(** Nobody touches the keyboard. *)
Definition idle : Env := env (fun _ => -1) Gdk_ModuleNotFound.

(** The polls of the animation are calls 0 to 79; the capture window
    polls from call 80 on. *)
Definition right_arrow_in_window : Env := env (press 83 82) Gdk_ModuleNotFound.

Definition monitor_pixels : Z * Z := (16, 8).

End Scenario.

(** The paths written by [cv2.imwrite], oldest first. *)
Fixpoint imwrites (t : list Event) : list string :=
  match t with
  | [] => []
  | ImWrite path _ :: t' => path :: imwrites t'
  | _ :: t' => imwrites t'
  end.

(** Camera operations, in order. *)
Fixpoint camera_calls (t : list Event) : list Event :=
  match t with
  | [] => []
  | ClearFrameBuffer :: t' => ClearFrameBuffer :: camera_calls t'
  | NextFrame :: t' => NextFrame :: camera_calls t'
  | _ :: t' => camera_calls t'
  end.


(** ** Vocabulary for the statements about [create_image] *)

(** The centre [create_image] hands to [write_text_on_image]. *)
Definition painter_center (monitor_pixels center : Z * Z)
    (orientation : TargetOrientation) : Z * Z :=
  match orientation with
  | RIGHT => center
  | LEFT => (fst monitor_pixels - fst center, snd center)
  | DOWN => (snd center, fst center)
  | UP => (snd monitor_pixels - snd center, fst center)
  end.

(** The blank buffer [create_image] hands to [write_text_on_image]. *)
Definition painter_buffer (monitor_pixels : Z * Z)
    (orientation : TargetOrientation) : ndarray :=
  match orientation with
  | LEFT | RIGHT => np_zeros (snd monitor_pixels) (fst monitor_pixels)
  | UP | DOWN => np_zeros (fst monitor_pixels) (snd monitor_pixels)
  end.

(** Where the pixel of row [r], column [c] of the returned frame comes from
    in the painted buffer: (row, column). *)
Definition source_pixel (monitor_pixels : Z * Z)
    (orientation : TargetOrientation) (r c : Z) : Z * Z :=
  match orientation with
  | RIGHT => (r, c)
  | LEFT => (r, fst monitor_pixels - 1 - c)
  | DOWN => (c, r)
  | UP => (c, snd monitor_pixels - 1 - r)
  end.

(** The disc and the glyph painted on [img], the glyph in [color]. *)
Definition painted (cv : Drawing) (center : Z * Z) (circle_scale : Q)
    (img : ndarray) (target : string) (color : Color) : ndarray :=
  let text_size := getTextSize cv target in
  cv2_putText cv
    (cv2_circle cv img center
       (Py.int (inject_Z (fst text_size * 5) * circle_scale)%Q) GRAY)
    target
    (fst center - fst text_size / 2, snd center + snd text_size / 2)
    color.

(** The threshold [random.uniform(0.1, 0.5)] computes from the draw [r] of
    [random.random()]. *)
Definition threshold (r : Q) : Q := ((1 # 10) + ((1 # 2) - (1 # 10)) * r)%Q.

(** Colour names for a displayed pixel (channels blue, green, red). *)
Definition pixel_displays_blue (p : Pixel) : bool :=
  let '(b, g, r) := p in Py.lt r g && Py.lt g b.
Definition pixel_displays_orange (p : Pixel) : bool :=
  let '(b, g, r) := p in Py.lt b g && Py.lt g r.

(** Apply [f] to the frame of a [create_image] result. *)
Definition map_frame (f : ndarray -> ndarray)
    (o : Outcome (ndarray * Q * bool)) : Outcome (ndarray * Q * bool) :=
  match o with
  | Ret (img, s, e) w => Ret (f img, s, e) w
  | other => other
  end.

(** ** Vocabulary for the statements about the trial *)

(** The world after [n] calls of [cv2.waitKey]. *)
Fixpoint after_polls (n : nat) (w : World) : World :=
  match n with
  | O => w
  | S n' => after_polls n' (use_waitKey w)
  end.

(** The shrink factor after [n] frames. *)
Fixpoint decayed (n : nat) (circle_scale : Q) : Q :=
  match n with
  | O => circle_scale
  | S n' => decayed n' (circle_scale * (9 # 10))%Q
  end.

(** The key code read by a poll is the quit key. *)
Definition is_quit (key : Z) : bool := Z.land key 255 =? Py.ord "q".

(** The key code read by a poll is the key bound to the orientation. *)
Definition is_match (orientation : TargetOrientation) (key : Z) : bool :=
  Z.land key 255 =? value orientation.

(** The capture window that opened at [start] is still open at [now]. *)
Definition window_open (start now : Q) : bool := Py.lt (now - start) (1 # 2).

(** The world in which the animation of a trial started in [w] begins:
    two draws for the centre and one for the orientation are used. *)
Definition after_setup (w : World) : World :=
  use_randbelow (use_random (use_random w)).

(** The centre and the orientation drawn by the setup of a trial started
    in [w]. *)
Definition setup_center (env : Env) (monitor_pixels : Z * Z) (w : World)
    : Z * Z :=
  (Py.int ((0 + (1 - 0) * script_random env (n_random w))
           * inject_Z (fst monitor_pixels))%Q,
   Py.int ((0 + (1 - 0) * script_random env (S (n_random w)))
           * inject_Z (snd monitor_pixels))%Q).
Definition setup_orientation (env : Env) (w : World) : TargetOrientation :=
  nth (script_randbelow env (n_randbelow w) mod 4)%nat
      list_TargetOrientation UP.

(** Projections of an outcome. *)
Definition returned {A : Type} (o : Outcome A) : option A :=
  match o with Ret a _ => Some a | _ => None end.
Definition final_world {A : Type} (o : Outcome A) : option World :=
  match o with
  | Ret _ w | SysExit w | Raised _ w => Some w
  | OutOfFuel => None
  end.

Definition is_ImShow (e : Event) : Prop :=
  match e with ImShow _ _ => True | _ => False end.

(** The frame of a [create_image] result. *)
Definition frame_of (o : Outcome (ndarray * Q * bool)) : ndarray :=
  match o with
  | Ret (img, _, _) _ => img
  | _ => np_zeros 0 0
  end.

(** The termination flag of a [create_image] result. *)
Definition flag_of (o : Outcome (ndarray * Q * bool)) : option bool :=
  match o with
  | Ret (_, _, e) _ => Some e
  | _ => None
  end.

(** The world in which the session loop of [main] starts. *)
Definition session_start (base_path : string) (mm pixels : Z * Z) (w : World)
    : World :=
  emit (SetWindowProperty WINDOW_NAME)
    (emit (NamedWindow WINDOW_NAME)
       (emit (PrintFound mm pixels)
          (emit NextFrame (use_frames (emit (Mkdir (base_path ++ "/")) w))))).

(** ** Vocabulary for the statements about the session *)

(** The tables written by [to_csv], oldest first. *)
Fixpoint csv_writes (t : list Event) : list DataFrame :=
  match t with
  | [] => []
  | ToCsv _ d :: t' => d :: csv_writes t'
  | _ :: t' => csv_writes t'
  end.

(** The path [cv2.imwrite] is given for the file name in a row of the
    table. *)
Definition image_path (base_path row_file_name : string) : string :=
  base_path ++ "/" ++ row_file_name.


(** The row and column of the frame in which the pixel painted at the
    painter's centre is shown, for the centre [(x, y)] the caller asked
    for. *)
Definition shown_center (center : Z * Z) (orientation : TargetOrientation)
    : Z * Z :=
  match orientation with
  | RIGHT | DOWN => (snd center, fst center)
  | LEFT => (snd center, fst center - 1)
  | UP => (snd center - 1, fst center)
  end.


(** A session on a machine whose Gdk reports a monitor of 16 by 8 pixels:
    the right arrow is read by the third poll of the first trial's capture
    window (call 82 of [cv2.waitKey]), [q] by the poll that follows the
    trial (call 84). *)
Module Session.

Definition keys (n : nat) : Z :=
  if Nat.eqb n 82 then 83 else if Nat.eqb n 84 then 113 else -1.

Definition capture_then_quit : Env :=
  Scenario.env keys (Gdk_monitor 340 190 16 8).

End Session.


(** ** The render step over binary64 *)

(** [write_text_on_image] and [create_image] once more, with the shrink
    factor, the random draw and the threshold as IEEE binary64 numbers and
    Python's operations on them: [+], [-], [*] round to nearest, ties to
    even; the literals [0.1], [0.5] and [0.9] are the nearest binary64
    numbers.  Arrays, painters and the world are those of the embedding
    above; the draws of [random.random()] are a script of binary64
    numbers read through the cursor [n_random]. *)
Module Binary64.

#[local] Set Warnings "-inexact-float".

(** [float(n)], the conversion of an int that [n * x] applies before it
    multiplies: the nearest binary64 number, [OverflowError] beyond the
    largest one. *)
Definition float_of_int (n : Z) : M float :=
  let x := SF2Prim (binary_normalize prec emax n 0 false) in
  if is_infinity x
  then raise (OtherException "OverflowError")
  else ret x.

(** [int(x)]: truncation toward zero; [ValueError] on a NaN,
    [OverflowError] on an infinity. *)
Definition int (x : float) : M Z :=
  match Prim2SF x with
  | S754_zero _ => ret 0
  | S754_finite s m e =>
      let a := if 0 <=? e then Z.pos m * 2 ^ e else Z.pos m / 2 ^ (- e) in
      ret (if s then - a else a)
  | S754_infinity _ => raise (OtherException "OverflowError")
  | S754_nan => raise (ValueError "cannot convert float NaN to integer")
  end.

Section Render.

Variable cv : Drawing.

(** The results of [random.random()]. *)
Variable draws : nat -> float.

(** [random.random()] *)
Definition random_random : M float :=
  fun w => Ret (draws (n_random w)) (use_random w).

(** [random.uniform(a, b)], which is [a + (b - a) * random()]. *)
Definition random_uniform (a b : float) : M float :=
  r <- random_random ;;
  ret (a + (b - a) * r)%float.

(** [int(text_size[0] * 5 * circle_scale)] *)
Definition radius (text_size : Z * Z) (circle_scale : float) : M Z :=
  width_5 <- float_of_int (fst text_size * 5) ;;
  int (width_5 * circle_scale)%float.

Definition write_text_on_image (center : Z * Z) (circle_scale : float)
    (img : ndarray) (target : string) : M (bool * ndarray) :=
  let text_size := getTextSize cv target in
  r <- radius text_size circle_scale ;;
  let img := cv2_circle cv img center r GRAY in
  let text_origin :=
    (fst center - fst text_size / 2, snd center + snd text_size / 2) in
  t <- random_uniform 0.1 0.5 ;;
  let end_animation_loop := (circle_scale <? t)%float in
  if negb end_animation_loop
  then ret (end_animation_loop,
            cv2_putText cv img target text_origin COLOR_RUNNING)
  else ret (end_animation_loop,
            cv2_putText cv img target text_origin COLOR_LAST_FRAME).

Definition create_image (monitor_pixels : Z * Z) (center : Z * Z)
    (circle_scale : float) (orientation : TargetOrientation) (target : string)
    : M (ndarray * float * bool) :=
  let '(width, height) := monitor_pixels in
  match orientation with
  | LEFT | RIGHT =>
      let img := np_zeros height width in
      let center :=
        if TargetOrientation_eqb orientation LEFT
        then (width - fst center, snd center) else center in
      '(end_animation_loop, img) <-
        write_text_on_image center circle_scale img target ;;
      let img :=
        if TargetOrientation_eqb orientation LEFT
        then cv2_flip_1 img else img in
      ret (ndarray_div img 255, (circle_scale * 0.9)%float,
           end_animation_loop)
  | UP | DOWN =>
      let img := np_zeros width height in
      let center := (snd center, fst center) in
      let center :=
        if TargetOrientation_eqb orientation UP
        then (height - fst center, snd center) else center in
      '(end_animation_loop, img) <-
        write_text_on_image center circle_scale img target ;;
      let img :=
        if TargetOrientation_eqb orientation UP
        then cv2_flip_1 img else img in
      let img := transpose_1_0_2 img in
      ret (ndarray_div img 255, (circle_scale * 0.9)%float,
           end_animation_loop)
  end.

End Render.

(** The largest number [random.random()] returns: [1 - 2^-53]. *)
Definition largest_draw : float := 0x1.fffffffffffffp-1%float.

(** A shrink factor and a draw at which the rounding of the threshold
    decides the flag. *)
Definition close_scale : float := 0.34867844010000015%float.
Definition close_draw : float := 0.6216961002500004%float.

End Binary64.

(** * Properties *)

(** Closed comparisons of numerals. *)
Ltac decide_order :=
  first [ reflexivity
        | discriminate
        | (intro; discriminate)
        | (split; decide_order) ].


(** ** Running the monad *)

Lemma bind_Ret {A B : Type} (m : M A) (k : A -> M B) w b w' :
  bind m k w = Ret b w' ->
  exists a w1, m w = Ret a w1 /\ k a w1 = Ret b w'.
Proof.
  unfold bind. destruct (m w) as [a w1 | w1 | e w1 | ]; intro H;
    try discriminate.
  exists a, w1. split; [reflexivity | exact H].
Qed.

Lemma bind_SysExit {A B : Type} (m : M A) (k : A -> M B) w w' :
  bind m k w = SysExit w' ->
  m w = SysExit w' \/ exists a w1, m w = Ret a w1 /\ k a w1 = SysExit w'.
Proof.
  unfold bind. destruct (m w) as [a w1 | w1 | e w1 | ]; intro H;
    try discriminate.
  - right. exists a, w1. split; [reflexivity | exact H].
  - left. congruence.
Qed.

Lemma bind_Raised {A B : Type} (m : M A) (k : A -> M B) w e w' :
  bind m k w = Raised e w' ->
  m w = Raised e w' \/ exists a w1, m w = Ret a w1 /\ k a w1 = Raised e w'.
Proof.
  unfold bind. destruct (m w) as [a w1 | w1 | e1 w1 | ]; intro H;
    try discriminate.
  - right. exists a, w1. split; [reflexivity | exact H].
  - left. congruence.
Qed.

Lemma bind_step {A B : Type} (m : M A) (k : A -> M B) w a w1 :
  m w = Ret a w1 -> bind m k w = k a w1.
Proof. intro H. unfold bind. rewrite H. reflexivity. Qed.

(** ** Arithmetic of the Python built-ins *)

Lemma Py_lt_iff (x y : Q) : Py.lt x y = true <-> (x < y)%Q.
Proof.
  unfold Py.lt. rewrite negb_true_iff. split.
  - intro H. apply Qnot_le_lt. intro Hle.
    apply Qle_bool_iff in Hle. congruence.
  - intro H. destruct (Qle_bool y x) eqn:E; [ | reflexivity].
    apply Qle_bool_iff in E. exfalso. exact (Qlt_not_le _ _ H E).
Qed.

Lemma Py_int_floor (x : Q) : (0 <= x)%Q -> Py.int x = Qfloor x.
Proof.
  destruct x as [n d]. unfold Qle, Py.int, Qfloor. simpl. intro H.
  apply Z.quot_div_nonneg; lia.
Qed.

(** Scaling a fraction of the unit interval by a positive integer and
    truncating gives an index below that integer. *)
Lemma Py_int_fraction_in_range (u : Q) (n : Z) :
  (0 <= u)%Q -> (u < 1)%Q -> 0 < n ->
  0 <= Py.int (u * inject_Z n)%Q < n.
Proof.
  intros H0 H1 Hn.
  assert (Hq : (0 < inject_Z n)%Q).
  { change 0%Q with (inject_Z 0). rewrite <- Zlt_Qlt. exact Hn. }
  assert (Hlo : (0 <= u * inject_Z n)%Q).
  { apply Qmult_le_0_compat; [exact H0 | apply Qlt_le_weak; exact Hq]. }
  assert (Hhi : (u * inject_Z n < inject_Z n)%Q).
  { setoid_replace (inject_Z n) with (1 * inject_Z n)%Q at 2 by ring.
    apply Qmult_lt_compat_r; assumption. }
  rewrite Py_int_floor by exact Hlo. split.
  - change 0 with (Qfloor 0). apply Qfloor_resp_le. exact Hlo.
  - rewrite Zlt_Qlt. eapply Qle_lt_trans; [apply Qfloor_le | exact Hhi].
Qed.

Lemma uniform_0_1 (r : Q) : (0 + (1 - 0) * r == r)%Q.
Proof. ring. Qed.

Lemma uniform_threshold_range (r : Q) :
  (0 <= r)%Q -> (r < 1)%Q ->
  ((1 # 10) <= (1 # 10) + ((1 # 2) - (1 # 10)) * r)%Q /\
  ((1 # 10) + ((1 # 2) - (1 # 10)) * r < (1 # 2))%Q.
Proof.
  intros H0 H1.
  assert (E : ((1 # 10) + ((1 # 2) - (1 # 10)) * r == (1 # 10) + (2 # 5) * r)%Q)
    by ring.
  rewrite E. split.
  - setoid_replace (1 # 10)%Q with ((1 # 10) + 0)%Q at 1 by ring.
    apply Qplus_le_r. apply Qmult_le_0_compat; [discriminate | exact H0].
  - setoid_replace (1 # 2)%Q with ((1 # 10) + (2 # 5) * 1)%Q by ring.
    apply Qplus_lt_r. apply Qmult_lt_l; [reflexivity | exact H1].
Qed.


(** ** Rendering *)

Lemma write_text_on_image_run cv env center circle_scale img target w :
  let e := Py.lt circle_scale (threshold (script_random env (n_random w))) in
  write_text_on_image cv env center circle_scale img target w =
  Ret (e, painted cv center circle_scale img target
            (if e then COLOR_LAST_FRAME else COLOR_RUNNING))
      (use_random w).
Proof.
  unfold write_text_on_image, random_uniform, random_random, bind, ret,
    threshold, painted.
  destruct (Py.lt circle_scale _); reflexivity.
Qed.

Lemma create_image_run cv env monitor_pixels center circle_scale orientation
    target w :
  let e := Py.lt circle_scale (threshold (script_random env (n_random w))) in
  let drawn :=
    painted cv (painter_center monitor_pixels center orientation) circle_scale
            (painter_buffer monitor_pixels orientation) target
            (if e then COLOR_LAST_FRAME else COLOR_RUNNING) in
  exists frame,
    create_image cv env monitor_pixels center circle_scale orientation target w =
    Ret (frame, (circle_scale * (9 # 10))%Q, e) (use_random w) /\
    shape frame = (snd monitor_pixels, fst monitor_pixels, 3) /\
    forall r c,
      px frame r c =
      pixel_div (px drawn (fst (source_pixel monitor_pixels orientation r c))
                          (snd (source_pixel monitor_pixels orientation r c)))
                255.
Proof.
  destruct monitor_pixels as [width height].
  destruct orientation; cbn zeta; unfold create_image;
    cbn [TargetOrientation_eqb fst snd];
    (erewrite bind_step by apply write_text_on_image_run);
    eexists; (split; [reflexivity | split; [reflexivity | ]]);
    intros r c; reflexivity.
Qed.

(** C5.  Every call of the render step reads one fresh draw of the random
    source, computes the threshold [random.uniform(0.1, 0.5)] from it, that
    is [0.1 + (0.5 - 0.1) * draw] in binary64, sets the termination flag
    to [circle_scale < threshold] and returns [circle_scale * 0.9] as the
    next shrink factor whatever the flag.  The threshold is 0.1 at the
    draw 0 and 0.5 itself at the largest draw.  The call returns whenever
    the radius of the disc can be computed, which needs a finite shrink
    factor. *)
Theorem render_step_flag_and_decay cv draws monitor_pixels center circle_scale
    orientation target w r :
  Binary64.radius (getTextSize cv target) circle_scale w = Ret r w ->
  let t := (0.1 + (0.5 - 0.1) * draws (n_random w))%float in
  (exists frame,
     Binary64.create_image cv draws monitor_pixels center circle_scale
       orientation target w =
     Ret (frame, (circle_scale * 0.9)%float, (circle_scale <? t)%float)
         (use_random w)) /\
  Binary64.random_uniform draws 0.1 0.5 w = Ret t (use_random w) /\
  n_random (use_random w) = S (n_random w) /\
  (0.1 + (0.5 - 0.1) * 0 = 0.1)%float /\
  (0.1 + (0.5 - 0.1) * Binary64.largest_draw = 0.5)%float.
Proof.
  intros Hr t.
  split; [ | repeat split].
  destruct monitor_pixels as [width height].
  unfold Binary64.create_image, Binary64.write_text_on_image.
  destruct orientation; cbn [TargetOrientation_eqb fst snd];
    unfold bind at 1; unfold bind at 1; rewrite Hr;
    unfold Binary64.random_uniform, Binary64.random_random, bind, ret;
    fold t; destruct (circle_scale <? t)%float;
    eexists; reflexivity.
Qed.

(** C10.  For every orientation and every monitor of [W] by [H] pixels the
    frame [create_image] returns has shape [(H, W, 3)]; for UP and DOWN the
    buffer painted on has shape [(W, H, 3)] and is transposed back; each
    pixel of the frame is the painted pixel it comes from, divided by
    255. *)
Theorem create_image_frame_shape cv env W H center circle_scale orientation
    target w :
  0 < W -> 0 < H ->
  exists terminated drawn frame next_scale,
    write_text_on_image cv env (painter_center (W, H) center orientation)
      circle_scale (painter_buffer (W, H) orientation) target w =
    Ret (terminated, drawn) (use_random w) /\
    shape drawn = match orientation with
                  | LEFT | RIGHT => (H, W, 3)
                  | UP | DOWN => (W, H, 3)
                  end /\
    create_image cv env (W, H) center circle_scale orientation target w =
    Ret (frame, next_scale, terminated) (use_random w) /\
    shape frame = (H, W, 3) /\
    forall r c,
      px frame r c =
      pixel_div (px drawn (fst (source_pixel (W, H) orientation r c))
                          (snd (source_pixel (W, H) orientation r c)))
                255.
Proof.
  intros _ _.
  destruct (create_image_run cv env (W, H) center circle_scale orientation
              target w) as [frame [Hrun [Hshape Hpx]]].
  eexists _, _, frame, _.
  split; [apply write_text_on_image_run | ].
  split; [destruct orientation; reflexivity | ].
  split; [exact Hrun | split; [exact Hshape | exact Hpx]].
Qed.

(** C3, as amended.  LEFT mirrors the horizontal coordinate ([W - x]) before
    drawing and flips the finished frame horizontally, so the LEFT frame
    for the centre [(x, y)] is the horizontal mirror image of the RIGHT
    frame for the centre [(W - x, y)]; the UP frame for [(x, y)] is the
    vertical mirror image of the DOWN frame for [(x, H - y)]; and UP and
    DOWN are the transposes of LEFT and RIGHT rendered for the centre
    [(y, x)] on the monitor with the axes swapped.  Shrink factor, glyph
    and random draw are the same on both sides, and so are the returned
    shrink factor and termination flag. *)
Theorem orientation_mirror_pairs cv env W H x y circle_scale target w :
  create_image cv env (W, H) (x, y) circle_scale LEFT target w =
  map_frame cv2_flip_1
    (create_image cv env (W, H) (W - x, y) circle_scale RIGHT target w) /\
  create_image cv env (W, H) (x, y) circle_scale UP target w =
  map_frame cv2_flip_0
    (create_image cv env (W, H) (x, H - y) circle_scale DOWN target w) /\
  create_image cv env (W, H) (x, y) circle_scale UP target w =
  map_frame transpose_1_0_2
    (create_image cv env (H, W) (y, x) circle_scale LEFT target w) /\
  create_image cv env (W, H) (x, y) circle_scale DOWN target w =
  map_frame transpose_1_0_2
    (create_image cv env (H, W) (y, x) circle_scale RIGHT target w) /\
  exists frame terminated,
    create_image cv env (W, H) (x, y) circle_scale LEFT target w =
    Ret (frame, (circle_scale * (9 # 10))%Q, terminated) (use_random w).
Proof.
  unfold create_image; cbn [TargetOrientation_eqb fst snd].
  repeat (erewrite bind_step by apply write_text_on_image_run).
  cbn [map_frame].
  repeat split. eexists _, _. reflexivity.
Qed.

(** C7, as amended.  The frame depends on the random draw only through the
    termination flag: two runs of the render step on the same centre,
    shrink factor, orientation and glyph whose flags agree return the same
    frame.  The glyph is painted at the same origin in both cases, with
    the colour [(17, 112, 170)] exactly when the flag is false and
    [(252, 125, 11)] exactly when it is true.  In the blue, green, red
    channel order of the frame the first displays as orange and the second
    as blue. *)
Theorem frame_depends_on_draw_through_flag cv env1 env2 monitor_pixels center
    circle_scale orientation target w1 w2 :
  exists frame1 frame2 terminated1 terminated2 next_scale,
    create_image cv env1 monitor_pixels center circle_scale orientation
      target w1 = Ret (frame1, next_scale, terminated1) (use_random w1) /\
    create_image cv env2 monitor_pixels center circle_scale orientation
      target w2 = Ret (frame2, next_scale, terminated2) (use_random w2) /\
    (terminated1 = terminated2 -> frame1 = frame2) /\
    (forall r c,
       px frame1 r c =
       pixel_div
         (px (painted cv (painter_center monitor_pixels center orientation)
                circle_scale (painter_buffer monitor_pixels orientation)
                target
                (if terminated1 then (252, 125, 11) else (17, 112, 170)))
             (fst (source_pixel monitor_pixels orientation r c))
             (snd (source_pixel monitor_pixels orientation r c)))
         255) /\
    displays_orange (17, 112, 170) = true /\
    displays_blue (17, 112, 170) = false /\
    displays_blue (252, 125, 11) = true /\
    displays_orange (252, 125, 11) = false.
Proof.
  destruct monitor_pixels as [width height].
  pose proof (create_image_run cv env1 (width, height) center circle_scale
                orientation target w1) as H1.
  cbn zeta in H1. destruct H1 as [f1 [H1 [_ Hpx]]].
  exists f1.
  assert (Hdet : forall e w,
    exists f, create_image cv e (width, height) center circle_scale
                orientation target w =
              Ret (f, (circle_scale * (9 # 10))%Q,
                   Py.lt circle_scale (threshold (script_random e (n_random w))))
                  (use_random w) /\
              (Py.lt circle_scale (threshold (script_random env1 (n_random w1)))
               = Py.lt circle_scale (threshold (script_random e (n_random w)))
               -> f1 = f)).
  { intros e w. revert H1. unfold create_image.
    destruct orientation; cbn [TargetOrientation_eqb fst snd];
      repeat (erewrite bind_step by apply write_text_on_image_run);
      intro H1; eexists; (split; [reflexivity | ]);
      intro E; rewrite <- E; unfold ret in H1; congruence. }
  destruct (Hdet env2 w2) as [f2 [H2 Heq]].
  exists f2. eexists _, _, _.
  split; [exact H1 | split; [exact H2 | ]].
  split; [exact Heq | split; [exact Hpx | ]].
  repeat split.
Qed.

(** ** The worlds reached by polling *)

Lemma after_polls_fields n w :
  n_random (after_polls n w) = n_random w /\
  n_randbelow (after_polls n w) = n_randbelow w /\
  n_waitKey (after_polls n w) = (n_waitKey w + n)%nat /\
  n_time (after_polls n w) = n_time w /\
  n_strftime (after_polls n w) = n_strftime w /\
  n_frames (after_polls n w) = n_frames w /\
  trace (after_polls n w) = trace w.
Proof.
  revert w. induction n as [ | n IH]; intro w; simpl.
  - repeat split; lia.
  - destruct (IH (use_waitKey w)) as (H1 & H2 & H3 & H4 & H5 & H6 & H7).
    simpl in *. repeat split; try assumption; lia.
Qed.

(** ** The polls of one animation frame *)

Lemma poll_for_quit_none env n w :
  (forall i, (i < n)%nat ->
     is_quit (script_waitKey env (n_waitKey w + i)) = false) ->
  poll_for_quit env n w = Ret tt (after_polls n w).
Proof.
  revert w. induction n as [ | n IH]; intros w Hno; [reflexivity | ].
  cbn [poll_for_quit after_polls]. unfold bind at 1. unfold cv2_waitKey at 1.
  pose proof (Hno O ltac:(lia)) as H0. rewrite Nat.add_0_r in H0.
  unfold is_quit in H0. rewrite H0. apply IH.
  intros i Hi. specialize (Hno (S i) ltac:(lia)).
  replace (n_waitKey (use_waitKey w) + i)%nat with (n_waitKey w + S i)%nat
    by (simpl; lia).
  exact Hno.
Qed.


Lemma poll_for_quit_never_raises env n w e w' :
  poll_for_quit env n w <> Raised e w'.
Proof.
  revert w. induction n as [ | n IH]; intro w; [discriminate | ].
  cbn [poll_for_quit]. unfold bind at 1. unfold cv2_waitKey at 1.
  destruct (Z.land _ 255 =? _); [discriminate | apply IH].
Qed.

Lemma poll_for_quit_Ret env n w u w' :
  poll_for_quit env n w = Ret u w' -> w' = after_polls n w.
Proof.
  revert w. induction n as [ | n IH]; intros w H.
  - simpl in *. unfold ret in H. congruence.
  - cbn [poll_for_quit] in H. unfold bind at 1 in H.
    unfold cv2_waitKey at 1 in H.
    destruct (Z.land _ 255 =? _); [discriminate | ].
    apply IH in H. exact H.
Qed.

(** ** The animation loop *)

Lemma animation_loop_step cv env fuel window_name monitor_pixels center
    orientation circle_scale w :
  let e := Py.lt circle_scale (threshold (script_random env (n_random w))) in
  exists frame,
    create_image cv env monitor_pixels center circle_scale orientation "E" w =
    Ret (frame, (circle_scale * (9 # 10))%Q, e) (use_random w) /\
    animation_loop cv env (S fuel) window_name monitor_pixels center
      orientation circle_scale false w =
    bind (poll_for_quit env 10)
         (fun _ => animation_loop cv env fuel window_name monitor_pixels
                     center orientation (circle_scale * (9 # 10))%Q e)
         (emit (ImShow window_name frame) (use_random w)).
Proof.
  intro e.
  destruct (create_image_run cv env monitor_pixels center circle_scale
              orientation "E" w) as [frame [Hrun _]].
  exists frame. split; [exact Hrun | ].
  cbn [animation_loop negb]. rewrite (bind_step _ _ _ _ _ Hrun).
  reflexivity.
Qed.

Lemma animation_loop_flag cv env fuel window_name monitor_pixels center
    orientation circle_scale e w s' e' w' :
  animation_loop cv env fuel window_name monitor_pixels center orientation
    circle_scale e w = Ret (s', e') w' ->
  e' = true.
Proof.
  revert circle_scale e w.
  induction fuel as [ | fuel IH]; intros circle_scale e w H.
  - destruct e; simpl in H; [unfold ret in H; congruence | discriminate].
  - destruct e; [simpl in H; unfold ret in H; congruence | ].
    destruct (animation_loop_step cv env fuel window_name monitor_pixels
                center orientation circle_scale w) as [frame [_ Hstep]].
    rewrite Hstep in H. apply bind_Ret in H.
    destruct H as [u [w1 [_ H]]]. apply IH in H. exact H.
Qed.

Lemma animation_loop_never_raises cv env fuel window_name monitor_pixels
    center orientation circle_scale e w x w' :
  animation_loop cv env fuel window_name monitor_pixels center orientation
    circle_scale e w <> Raised x w'.
Proof.
  revert circle_scale e w.
  induction fuel as [ | fuel IH]; intros circle_scale e w H.
  - destruct e; simpl in H; discriminate.
  - destruct e; [simpl in H; discriminate | ].
    destruct (animation_loop_step cv env fuel window_name monitor_pixels
                center orientation circle_scale w) as [frame [_ Hstep]].
    rewrite Hstep in H. apply bind_Raised in H.
    destruct H as [H | [u [w1 [_ H]]]].
    + exact (poll_for_quit_never_raises _ _ _ _ _ H).
    + exact (IH _ _ _ H).
Qed.

Lemma imwrites_app t1 t2 : imwrites (t1 ++ t2) = (imwrites t1 ++ imwrites t2)%list.
Proof.
  induction t1 as [ | e t1 IH]; [reflexivity | ].
  destruct e; simpl; rewrite IH; reflexivity.
Qed.

Lemma camera_calls_app t1 t2 :
  camera_calls (t1 ++ t2) = (camera_calls t1 ++ camera_calls t2)%list.
Proof.
  induction t1 as [ | e t1 IH]; [reflexivity | ].
  destruct e; simpl; rewrite IH; reflexivity.
Qed.

(** The animation neither writes a file nor touches the camera, the clock
    or the time stamps. *)
Lemma animation_loop_leaves_camera cv env fuel window_name monitor_pixels
    center orientation circle_scale e w r w' :
  animation_loop cv env fuel window_name monitor_pixels center orientation
    circle_scale e w = Ret r w' ->
  imwrites (trace w') = imwrites (trace w) /\
  camera_calls (trace w') = camera_calls (trace w) /\
  n_frames w' = n_frames w /\ n_time w' = n_time w /\
  n_strftime w' = n_strftime w /\ n_randbelow w' = n_randbelow w.
Proof.
  revert circle_scale e w.
  induction fuel as [ | fuel IH]; intros circle_scale e w H.
  - destruct e; simpl in H; [ | discriminate].
    unfold ret in H. injection H as _ <-. repeat split.
  - destruct e.
    { simpl in H. unfold ret in H. injection H as _ <-. repeat split. }
    destruct (animation_loop_step cv env fuel window_name monitor_pixels
                center orientation circle_scale w) as [frame [_ Hstep]].
    rewrite Hstep in H. apply bind_Ret in H.
    destruct H as [u [w1 [Hp H]]]. apply poll_for_quit_Ret in Hp. subst w1.
    apply IH in H. destruct H as (H1 & H2 & H3 & H4 & H5 & H6).
    destruct (after_polls_fields 10 (emit (ImShow window_name frame)
                                          (use_random w)))
      as (_ & F2 & _ & F4 & F5 & F6 & F7).
    rewrite H1, H2, H3, H4, H5, H6, F2, F4, F5, F6, F7. simpl.
    rewrite imwrites_app, camera_calls_app. simpl.
    rewrite !app_nil_r. repeat split.
Qed.


(** The animation runs [k] frames without termination, ends on the next
    one, and no poll reads the quit key: the loop returns. *)
Lemma animation_loop_returns cv env window_name monitor_pixels center
    orientation :
  forall k fuel circle_scale w,
    (k < fuel)%nat ->
    (forall i, (i < k)%nat ->
       Py.lt (decayed i circle_scale)
             (threshold (script_random env (n_random w + i))) = false) ->
    Py.lt (decayed k circle_scale)
          (threshold (script_random env (n_random w + k))) = true ->
    (forall i, (i < 10 * S k)%nat ->
       is_quit (script_waitKey env (n_waitKey w + i)) = false) ->
    exists w1 shown,
      animation_loop cv env fuel window_name monitor_pixels center orientation
        circle_scale false w = Ret (decayed (S k) circle_scale, true) w1 /\
      trace w1 = (trace w ++ shown)%list /\
      List.length shown = S k /\ Forall is_ImShow shown /\
      n_waitKey w1 = (n_waitKey w + 10 * S k)%nat /\
      n_random w1 = (n_random w + S k)%nat /\
      n_randbelow w1 = n_randbelow w /\ n_time w1 = n_time w /\
      n_strftime w1 = n_strftime w /\ n_frames w1 = n_frames w.
Proof.
  induction k as [ | k IH]; intros fuel circle_scale w Hfuel Hrun Hend Hno;
    (destruct fuel as [ | fuel]; [lia | ]);
    destruct (animation_loop_step cv env fuel window_name monitor_pixels
                center orientation circle_scale w) as [frame [_ Hstep]];
    rewrite Hstep; clear Hstep;
    set (w1 := emit (ImShow window_name frame) (use_random w));
    (rewrite (bind_step _ _ _ tt (after_polls 10 w1));
     [ | apply poll_for_quit_none; intros i Hi; apply Hno; lia]);
    destruct (after_polls_fields 10 w1) as (F1 & F2 & F3 & F4 & F5 & F6 & F7).
  - rewrite Nat.add_0_r in Hend. simpl decayed in Hend. rewrite Hend.
    exists (after_polls 10 w1), [ImShow window_name frame].
    split; [destruct fuel; reflexivity | ].
    rewrite F1, F2, F3, F4, F5, F6, F7. subst w1. simpl.
    repeat split; try lia.
    constructor; [exact I | constructor].
  - pose proof (Hrun O ltac:(lia)) as H0.
    rewrite Nat.add_0_r in H0. simpl decayed in H0. rewrite H0.
    destruct (IH fuel (circle_scale * (9 # 10))%Q (after_polls 10 w1))
      as (w' & shown & Hret & Ht & Hlen & Hall & Hk & Hr & Hb & Htime & Hs & Hf);
      [lia | | | | ].
    + intros i Hi. rewrite F1. subst w1. simpl n_random.
      replace (S (n_random w) + i)%nat with (n_random w + S i)%nat by lia.
      apply (Hrun (S i)). lia.
    + rewrite F1. subst w1. simpl n_random.
      replace (S (n_random w) + k)%nat with (n_random w + S k)%nat by lia.
      exact Hend.
    + intros i Hi. rewrite F3. subst w1. simpl n_waitKey.
      replace (n_waitKey w + 10 + i)%nat with (n_waitKey w + (10 + i))%nat
        by lia.
      apply Hno. lia.
    + exists w', (ImShow window_name frame :: shown).
      split; [exact Hret | ].
      rewrite Ht, Hk, Hr, Hb, Htime, Hs, Hf, F1, F2, F3, F4, F5, F6, F7.
      subst w1. simpl. rewrite <- app_assoc. simpl.
      repeat split; try lia.
      constructor; [exact I | exact Hall].
Qed.

(** ** The capture window *)


Lemma capture_loop_never_exits env fuel base_path file_name orientation
    start w w' :
  capture_loop env fuel base_path file_name orientation start w <> SysExit w'.
Proof.
  revert w. induction fuel as [ | fuel IH]; intro w;
    cbn [capture_loop]; unfold bind at 1; unfold time_time at 1;
    destruct (Py.lt _ (1 # 2)); try discriminate.
  unfold bind at 1. unfold cv2_waitKey at 1.
  destruct (Z.land _ 255 =? _); [discriminate | apply IH].
Qed.

Lemma capture_loop_never_raises env fuel base_path file_name orientation
    start w e w' :
  capture_loop env fuel base_path file_name orientation start w <> Raised e w'.
Proof.
  revert w. induction fuel as [ | fuel IH]; intro w;
    cbn [capture_loop]; unfold bind at 1; unfold time_time at 1;
    destruct (Py.lt _ (1 # 2)); try discriminate.
  unfold bind at 1. unfold cv2_waitKey at 1.
  destruct (Z.land _ 255 =? _); [discriminate | apply IH].
Qed.

(** What the capture loop has done when it returns: nothing but polling
    when the window expired, exactly one clear, one frame and one file
    when a key matched. *)
Lemma capture_loop_Ret env fuel base_path file_name orientation start w r w' :
  capture_loop env fuel base_path file_name orientation start w = Ret r w' ->
  n_strftime w' = n_strftime w /\
  ((r = None /\ trace w' = trace w /\ n_frames w' = n_frames w) \/
   (exists t, r = Some t /\
      trace w' =
      (trace w ++
       [ClearFrameBuffer; NextFrame;
        ImWrite (base_path ++ "/" ++ file_name ++ ".jpg")
                (script_frames env (n_frames w))])%list /\
      n_frames w' = S (n_frames w))).
Proof.
  revert w. induction fuel as [ | fuel IH]; intros w H;
    cbn [capture_loop] in H; unfold bind at 1 in H;
    unfold time_time at 1 in H;
    destruct (Py.lt _ (1 # 2));
    try discriminate;
    try (unfold ret in H; injection H as <- <-; split; [reflexivity | ];
         left; repeat split).
  unfold bind at 1 in H. unfold cv2_waitKey at 1 in H.
  destruct (Z.land _ 255 =? _).
  - cbv [bind source_clear_frame_buffer perform source_next cv2_imwrite
         time_time ret] in H.
    injection H as <- <-. split; [reflexivity | ].
    right. eexists. split; [reflexivity | ].
    simpl. rewrite <- !app_assoc. split; reflexivity.
  - apply IH in H. simpl in H. exact H.
Qed.


(** ** One trial *)

Lemma show_point_on_screen_phases cv env fuel window_name base_path
    monitor_pixels w :
  show_point_on_screen cv env fuel window_name base_path monitor_pixels w =
  bind (animation_loop cv env fuel window_name monitor_pixels
          (setup_center env monitor_pixels w) (setup_orientation env w)
          1 false)
       (fun p =>
          bind (capture_window env fuel base_path (setup_orientation env w)
                  (snd p) None None)
               (fun q =>
                  finish_trial env window_name monitor_pixels
                    (setup_center env monitor_pixels w) (fst q) (snd q)))
       (after_setup w).
Proof.
  unfold show_point_on_screen, bind at 1 2.
  unfold get_random_position_on_screen, random_uniform, random_random,
    bind at 1 2 3 4, ret at 1 2 3.
  unfold random_choice, list_TargetOrientation. cbn [List.length].
  unfold after_setup, setup_center, setup_orientation, list_TargetOrientation.
  cbn [n_random n_randbelow use_random use_randbelow].
  unfold bind.
  destruct (animation_loop _ _ _ _ _ _ _ _ _ _) as [[s e] w1 | | | ];
    try reflexivity.
  cbn [snd]. destruct (capture_window _ _ _ _ _ _ _ _) as [[f t] w2 | | | ];
    reflexivity.
Qed.

Lemma finish_trial_run env window_name monitor_pixels center file_name
    time_till_capture w :
  finish_trial env window_name monitor_pixels center file_name
    time_till_capture w =
  Ret (Some (Py.format file_name ++ ".jpg"), center, time_till_capture)
      (use_waitKey
         (emit (ImShow window_name
                  (np_zeros (snd monitor_pixels) (fst monitor_pixels))) w)).
Proof. reflexivity. Qed.

Lemma capture_window_run env fuel base_path orientation w :
  capture_window env fuel base_path orientation true None None w =
  bind (capture_loop env fuel base_path (script_strftime env (n_strftime w))
          orientation (script_time env (n_time w)))
       (fun t => ret (Some (script_strftime env (n_strftime w)), t))
       (use_time (use_strftime w)).
Proof. reflexivity. Qed.

Lemma show_point_on_screen_never_raises cv env fuel window_name base_path
    monitor_pixels w e w' :
  show_point_on_screen cv env fuel window_name base_path monitor_pixels w
  <> Raised e w'.
Proof.
  rewrite show_point_on_screen_phases. intro H.
  apply bind_Raised in H. destruct H as [H | [[s f] [w1 [Ha H]]]].
  - exact (animation_loop_never_raises _ _ _ _ _ _ _ _ _ _ _ _ H).
  - apply animation_loop_flag in Ha. cbn [snd] in H. subst f.
    apply bind_Raised in H. destruct H as [H | [q [w2 [_ H]]]].
    + rewrite capture_window_run in H. apply bind_Raised in H.
      destruct H as [H | [t [w2 [_ H]]]]; [ | discriminate].
      exact (capture_loop_never_raises _ _ _ _ _ _ _ _ _ H).
    + rewrite finish_trial_run in H. discriminate.
Qed.



(** C9.  Whenever a trial returns, its animation loop has terminated and
    the file name it returns is the string [<stamp>.jpg], never [None],
    also when the capture window expired and no file was written; so the
    session loop's guard [file_name is not None and time_till_capture is
    not None] is decided by [time_till_capture] alone. *)
Theorem returned_file_name_is_never_None cv env fuel window_name base_path
    monitor_pixels w file_name center time_till_capture w' :
  show_point_on_screen cv env fuel window_name base_path monitor_pixels w =
  Ret (file_name, center, time_till_capture) w' ->
  (exists s w1,
     animation_loop cv env fuel window_name monitor_pixels
       (setup_center env monitor_pixels w) (setup_orientation env w)
       1 false (after_setup w) = Ret (s, true) w1) /\
  file_name = Some (script_strftime env (n_strftime w) ++ ".jpg") /\
  persistence_guard file_name time_till_capture =
  Py.is_not_None time_till_capture /\
  (time_till_capture = None ->
   imwrites (trace w') = imwrites (trace w) /\ n_frames w' = n_frames w).
Proof.
  rewrite show_point_on_screen_phases. intro H.
  apply bind_Ret in H. destruct H as [[s e] [w1 [Ha H]]].
  pose proof (animation_loop_flag _ _ _ _ _ _ _ _ _ _ _ _ _ Ha) as He.
  subst e. cbn [snd] in H.
  destruct (animation_loop_leaves_camera _ _ _ _ _ _ _ _ _ _ _ _ Ha)
    as (A1 & _ & A3 & _ & A5 & _).
  apply bind_Ret in H. destruct H as [[f t] [w2 [Hc H]]].
  rewrite capture_window_run in Hc. apply bind_Ret in Hc.
  destruct Hc as [t' [w3 [Hl Hc]]]. unfold ret in Hc.
  injection Hc as <- <- <-.
  rewrite finish_trial_run in H. cbn [fst snd Py.format] in H.
  injection H as <- <- <- <-.
  split; [exists s, w1; exact Ha | ].
  split; [rewrite A5; reflexivity | ].
  split; [reflexivity | ].
  intro Hnone. subst t'.
  apply capture_loop_Ret in Hl.
  destruct Hl as [_ [(_ & Ht & Hf) | (t & Habs & _)]]; [ | discriminate].
  cbn [trace n_frames use_waitKey emit]. rewrite imwrites_app, Ht, Hf.
  simpl. rewrite app_nil_r. split; assumption.
Qed.


(** C4.  On a monitor of [W > 0] by [H > 0] pixels, when the two draws of
    [random.random()] are in its range [0 <= r < 1], the position returned
    by [get_random_position_on_screen] satisfies [0 <= x < W] and
    [0 <= y < H]; it is the [point_on_screen] of every trial that returns
    from that state. *)
Theorem random_position_is_on_screen env W H w :
  0 < W -> 0 < H ->
  (0 <= script_random env (n_random w))%Q ->
  (script_random env (n_random w) < 1)%Q ->
  (0 <= script_random env (S (n_random w)))%Q ->
  (script_random env (S (n_random w)) < 1)%Q ->
  exists x y,
    get_random_position_on_screen env (W, H) w =
    Ret (x, y) (use_random (use_random w)) /\
    0 <= x < W /\ 0 <= y < H /\
    forall cv fuel window_name base_path file_name center time_till_capture w',
      show_point_on_screen cv env fuel window_name base_path (W, H) w =
      Ret (file_name, center, time_till_capture) w' ->
      center = (x, y).
Proof.
  intros HW HH Hx0 Hx1 Hy0 Hy1.
  exists (fst (setup_center env (W, H) w)), (snd (setup_center env (W, H) w)).
  split; [reflexivity | ].
  unfold setup_center. cbn [fst snd].
  split; [ | split].
  - apply Py_int_fraction_in_range; [ | | exact HW];
      rewrite uniform_0_1; assumption.
  - apply Py_int_fraction_in_range; [ | | exact HH];
      rewrite uniform_0_1; assumption.
  - intros cv fuel window_name base_path file_name center time_till_capture
      w' Hret.
    rewrite show_point_on_screen_phases in Hret.
    apply bind_Ret in Hret. destruct Hret as [p [w1 [_ Hret]]].
    apply bind_Ret in Hret. destruct Hret as [q [w2 [_ Hret]]].
    rewrite finish_trial_run in Hret. injection Hret as _ <- _ _.
    reflexivity.
Qed.

(** ** The session *)

Lemma session_loop_never_raises cv env fuel trial_fuel base_path monitor_mm
    monitor_pixels collected_data w e w' :
  session_loop cv env fuel trial_fuel base_path monitor_mm monitor_pixels
    collected_data w <> Raised e w'.
Proof.
  revert collected_data w.
  induction fuel as [ | fuel IH]; intros collected_data w H;
    [discriminate | ].
  cbn [session_loop] in H. apply bind_Raised in H.
  destruct H as [H | [[[f c] t] [w1 [_ H]]]].
  - exact (show_point_on_screen_never_raises _ _ _ _ _ _ _ _ _ H).
  - apply bind_Raised in H. destruct H as [H | [d [w2 [_ H]]]].
    + destruct f, t; discriminate.
    + unfold bind at 1 in H. unfold cv2_waitKey at 1 in H.
      destruct (Z.land _ 255 =? _); [discriminate | ].
      exact (IH _ _ H).
Qed.

(** C8.  When [main] is called without both [monitor_mm] and
    [monitor_pixels] and the monitor geometry cannot be retrieved, it
    raises before the window is created and before any trial: the only
    things done are the directory and the start of the webcam; the
    exception is the [ValueError] asking for the dimensions when Gdk is
    missing.  When both are supplied, the same failure of the retrieval
    does not matter: [main] goes on to the session loop and does not
    raise. *)
Theorem missing_monitor_geometry_is_fatal cv env fuel trial_fuel base_path
    monitor_mm monitor_pixels w :
  Py.is_None monitor_mm || Py.is_None monitor_pixels = true ->
  (forall a b c d, gdk env <> Gdk_monitor a b c d) ->
  (exists e w',
     main cv env fuel trial_fuel base_path monitor_mm monitor_pixels w =
     Raised e w' /\
     trace w' = (trace w ++ [Mkdir (base_path ++ "/"); NextFrame])%list /\
     n_random w' = n_random w /\ n_waitKey w' = n_waitKey w /\
     (gdk env = Gdk_ModuleNotFound ->
      e = ValueError
        "Please supply monitor dimensions manually as they could not be retrieved.")) /\
  (forall mm pixels,
     main cv env fuel trial_fuel base_path (Some mm) (Some pixels) w =
     session_loop cv env fuel trial_fuel base_path mm pixels empty_data
       (session_start base_path mm pixels w) /\
     forall e w',
       main cv env fuel trial_fuel base_path (Some mm) (Some pixels) w
       <> Raised e w').
Proof.
  intros Hnone Hgdk. split.
  - unfold main. unfold bind at 1 2. cbn [perform source_next].
    rewrite Hnone. unfold bind at 1 2. unfold get_monitor_dimensions.
    destruct (gdk env) as [ | name | a b c d] eqn:E.
    + eexists _, _. split; [reflexivity | ].
      simpl. rewrite <- app_assoc. repeat split.
    + eexists _, _. split; [reflexivity | ].
      simpl. rewrite <- app_assoc. repeat split. discriminate.
    + exfalso. exact (Hgdk a b c d eq_refl).
  - intros mm pixels.
    assert (E : main cv env fuel trial_fuel base_path (Some mm) (Some pixels) w =
                session_loop cv env fuel trial_fuel base_path mm pixels
                  empty_data (session_start base_path mm pixels w))
      by reflexivity.
    split; [exact E | ].
    intros e w'. rewrite E. apply session_loop_never_raises.
Qed.

(** * Concrete runs *)

(** C1.  A trial in which nobody presses a key: the animation ends, the
    capture window expires, no file is written, and the trial returns
    [file_name = "2021_03_04-05_06_07.jpg"] together with
    [time_till_capture = None]: one field is present and the other
    absent. *)
Theorem expired_trial_returns_a_file_name :
  let run := show_point_on_screen Raster.drawing Scenario.idle 20 WINDOW_NAME
               "data" Scenario.monitor_pixels initial_world in
  returned run = Some (Some "2021_03_04-05_06_07.jpg", (4, 4), None) /\
  option_map (fun w => imwrites (trace w)) (final_world run) = Some [] /\
  option_map (fun w => camera_calls (trace w)) (final_world run) = Some [] /\
  Py.is_not_None (Some "2021_03_04-05_06_07.jpg") <> Py.is_not_None (@None Q).
Proof.
  cbv zeta. repeat split; try (vm_compute; reflexivity). discriminate.
Qed.


(** C3, counterexample.  Monitor 16 by 8, centre [(3, 4)], full shrink
    factor, glyph ["E"], same random draw.  The RIGHT frame has the glyph
    in column 3; the LEFT frame has it in column 2, not in column 3 where
    it was requested, and not in column 12 where the mirror image of the
    RIGHT frame has it: the two frames are not mirror images of each
    other. *)
Lemma left_and_right_frames_are_not_mirror_images :
  let render o := frame_of (create_image Raster.drawing Scenario.idle (16, 8)
                              (3, 4) 1 o "E" initial_world) in
  let glyph : Pixel := (17 # 255, 112 # 255, 170 # 255)%Q in
  px (render RIGHT) 4 3 = glyph /\
  px (render LEFT) 4 2 = glyph /\
  px (render LEFT) 4 3 <> glyph /\
  px (cv2_flip_1 (render RIGHT)) 4 12 = glyph /\
  px (render LEFT) 4 12 <> glyph /\
  ~ same_image (render LEFT) (cv2_flip_1 (render RIGHT)) /\
  ~ same_image (render LEFT) (render RIGHT).
Proof.
  cbv zeta.
  split; [vm_compute; reflexivity | ].
  split; [vm_compute; reflexivity | ].
  split; [vm_compute; discriminate | ].
  split; [vm_compute; reflexivity | ].
  split; [vm_compute; discriminate | ].
  assert (Hc : Lt = Gt -> False) by discriminate.
  split; intros [_ H]; specialize (H 4 2); vm_compute in H;
    specialize (H (conj Hc eq_refl) (conj Hc eq_refl)); discriminate.
Qed.

(** C7, counterexample.  With the flag false the glyph pixel of the frame
    has 17/255 in the blue channel and 170/255 in the red one: it displays
    as orange, not blue.  With the flag true it has 252/255 in the blue
    channel and 11/255 in the red one: it displays as blue, not orange. *)
Lemma running_glyph_is_not_blue :
  let render s := create_image Raster.drawing Scenario.idle (16, 8) (4, 4) s
                    RIGHT "E" initial_world in
  flag_of (render 1%Q) = Some false /\
  px (frame_of (render 1%Q)) 4 4 = (17 # 255, 112 # 255, 170 # 255)%Q /\
  pixel_displays_blue (px (frame_of (render 1%Q)) 4 4) = false /\
  pixel_displays_orange (px (frame_of (render 1%Q)) 4 4) = true /\
  flag_of (render (1 # 10)%Q) = Some true /\
  px (frame_of (render (1 # 10)%Q)) 4 4 = (252 # 255, 125 # 255, 11 # 255)%Q /\
  pixel_displays_blue (px (frame_of (render (1 # 10)%Q)) 4 4) = true /\
  pixel_displays_orange (px (frame_of (render (1 # 10)%Q)) 4 4) = false.
Proof.
  cbv zeta. repeat split; vm_compute; reflexivity.
Qed.

(** * The theorems at concrete inputs *)

(** C5 at a shrink factor and a draw where the rounding decides: the
    exact value of [0.1 + 0.4 * draw] is above the shrink factor, its
    binary64 value is the shrink factor itself, and the flag is false. *)
Lemma render_step_flag_and_decay_witness :
  Binary64.radius (getTextSize Raster.drawing "E") Binary64.close_scale
    initial_world = Ret 1 initial_world /\
  exists frame,
    Binary64.create_image Raster.drawing (fun _ => Binary64.close_draw)
      (16, 8) (4, 4) Binary64.close_scale RIGHT "E" initial_world =
    Ret (frame, 0.31381059609000017%float, false) (use_random initial_world).
Proof.
  assert (Hr : Binary64.radius (getTextSize Raster.drawing "E")
                 Binary64.close_scale initial_world = Ret 1 initial_world)
    by reflexivity.
  destruct (render_step_flag_and_decay Raster.drawing
              (fun _ => Binary64.close_draw) (16, 8) (4, 4)
              Binary64.close_scale RIGHT "E" initial_world 1 Hr)
    as [[frame Hrun] _].
  split; [exact Hr | exists frame; exact Hrun].
Defined.

(** C10 for the UP orientation on a monitor of 16 by 8 pixels. *)
Lemma create_image_frame_shape_witness :
  0 < 16 /\ 0 < 8 /\
  exists frame next_scale terminated,
    create_image Raster.drawing Scenario.idle (16, 8) (4, 4) 1 UP "E"
      initial_world =
    Ret (frame, next_scale, terminated) (use_random initial_world) /\
    shape frame = (8, 16, 3).
Proof.
  assert (HW : 0 < 16) by reflexivity.
  assert (HH : 0 < 8) by reflexivity.
  destruct (create_image_frame_shape Raster.drawing Scenario.idle 16 8 (4, 4)
              1%Q UP "E" initial_world HW HH)
    as (terminated & drawn & frame & next_scale & _ & _ & Hrun & Hshape & _).
  split; [exact HW | split; [exact HH | ]].
  exists frame, next_scale, terminated. split; [exact Hrun | exact Hshape].
Defined.

(** C4 on a monitor of 16 by 8 pixels with the draws 1/4 and 1/2. *)
Lemma random_position_is_on_screen_witness :
  0 < 16 /\ 0 < 8 /\
  exists x y,
    get_random_position_on_screen Scenario.idle (16, 8) initial_world =
    Ret (x, y) (use_random (use_random initial_world)) /\
    0 <= x < 16 /\ 0 <= y < 8.
Proof.
  assert (HW : 0 < 16) by reflexivity.
  assert (HH : 0 < 8) by reflexivity.
  destruct (random_position_is_on_screen Scenario.idle 16 8 initial_world
              HW HH ltac:(decide_order) ltac:(decide_order)
              ltac:(decide_order) ltac:(decide_order))
    as (x & y & Hrun & Hx & Hy & _).
  split; [exact HW | split; [exact HH | ]].
  exists x, y. split; [exact Hrun | split; [exact Hx | exact Hy]].
Defined.

(** C8 on a machine without Gdk and a call without dimensions. *)
Lemma missing_monitor_geometry_is_fatal_witness :
  exists w',
    main Raster.drawing Scenario.idle 1 20 "data" None None initial_world =
    Raised (ValueError
      "Please supply monitor dimensions manually as they could not be retrieved.")
      w' /\
    trace w' = [Mkdir "data/"; NextFrame].
Proof.
  destruct (missing_monitor_geometry_is_fatal Raster.drawing Scenario.idle
              1 20 "data" None None initial_world eq_refl
              ltac:(intros; discriminate))
    as [(e & w' & Hrun & Ht & _ & _ & He) _].
  exists w'. rewrite <- (He eq_refl). split; [exact Hrun | exact Ht].
Defined.


(** C9 on the trial in which nobody presses a key. *)
Lemma returned_file_name_is_never_None_witness :
  exists w',
    show_point_on_screen Raster.drawing Scenario.idle 20 WINDOW_NAME "data"
      Scenario.monitor_pixels initial_world =
    Ret (Some "2021_03_04-05_06_07.jpg", (4, 4), None) w' /\
    persistence_guard (Some "2021_03_04-05_06_07.jpg") None = false /\
    imwrites (trace w') = [] /\ n_frames w' = 0%nat.
Proof.
  assert (E : exists w',
    show_point_on_screen Raster.drawing Scenario.idle 20 WINDOW_NAME "data"
      Scenario.monitor_pixels initial_world =
    Ret (Some "2021_03_04-05_06_07.jpg", (4, 4), None) w')
    by (eexists; vm_compute; reflexivity).
  destruct E as [w' E]. exists w'.
  destruct (returned_file_name_is_never_None _ _ _ _ _ _ _ _ _ _ _ E)
    as (_ & _ & Hguard & Hnone).
  destruct (Hnone eq_refl) as [Hw Hf].
  split; [exact E | split; [exact Hguard | split; [exact Hw | exact Hf]]].
Defined.



(** * Further properties of the code *)

(** ** Key codes *)

Lemma low_byte (key : Z) : Z.land key 255 = key mod 256.
Proof. change 255 with (Z.ones 8). apply Z.land_ones. lia. Qed.

(** X1.  The polls look at the low byte of the key code only.  A poll of
    the animation ends the process exactly when the code is 113 modulo
    256 and goes on otherwise.  A round of the capture loop that finds the
    window open captures exactly when the code equals the orientation's
    value modulo 256 and goes on to the next round otherwise.  The code
    [-1] of "no key" has the low byte 255 and does neither. *)
Theorem polls_compare_the_low_byte env fuel base_path file_name orientation
    start w :
  let key := script_waitKey env (n_waitKey w) in
  let polled := use_waitKey (use_time w) in
  let captured :=
    use_time
      (emit (ImWrite (base_path ++ "/" ++ file_name ++ ".jpg")
                     (script_frames env (n_frames w)))
         (emit NextFrame (use_frames (emit ClearFrameBuffer polled)))) in
  (key mod 256 = 113 ->
   poll_for_quit env 1 w = SysExit (emit DestroyAllWindows (use_waitKey w))) /\
  (key mod 256 <> 113 -> poll_for_quit env 1 w = Ret tt (use_waitKey w)) /\
  (window_open start (script_time env (n_time w)) = true ->
   (key mod 256 = value orientation ->
    capture_loop env (S fuel) base_path file_name orientation start w =
    Ret (Some (script_time env (S (n_time w)) - start)%Q) captured) /\
   (key mod 256 <> value orientation ->
    capture_loop env (S fuel) base_path file_name orientation start w =
    capture_loop env fuel base_path file_name orientation start polled)) /\
  (forall o, is_match o key = true <-> key mod 256 = value o) /\
  (key = -1 ->
   poll_for_quit env 1 w = Ret tt (use_waitKey w) /\
   (window_open start (script_time env (n_time w)) = true ->
    capture_loop env (S fuel) base_path file_name orientation start w =
    capture_loop env fuel base_path file_name orientation start polled)).
Proof.
  intros key polled captured.
  assert (Hquit : forall b,
            (Z.land key 255 =? Py.ord "q") = b ->
            poll_for_quit env 1 w =
            if b then SysExit (emit DestroyAllWindows (use_waitKey w))
            else Ret tt (use_waitKey w)).
  { intros b Hb. unfold poll_for_quit, bind, cv2_waitKey. fold key.
    rewrite Hb. destruct b; reflexivity. }
  assert (Hcap : forall b,
            window_open start (script_time env (n_time w)) = true ->
            (Z.land key 255 =? value orientation) = b ->
            capture_loop env (S fuel) base_path file_name orientation start w =
            if b
            then Ret (Some (script_time env (S (n_time w)) - start)%Q) captured
            else capture_loop env fuel base_path file_name orientation start
                   polled).
  { intros b Hopen Hb. cbn [capture_loop]. unfold bind at 1.
    unfold time_time at 1. unfold window_open in Hopen. rewrite Hopen.
    unfold bind at 1. unfold cv2_waitKey at 1.
    change (n_waitKey (use_time w)) with (n_waitKey w). fold key.
    rewrite Hb. destruct b; reflexivity. }
  rewrite low_byte in Hquit, Hcap. change (Py.ord "q") with 113 in Hquit.
  split; [ | split; [ | split; [ | split]]].
  - intro H. apply (Hquit true). apply Z.eqb_eq. exact H.
  - intro H. apply (Hquit false). apply Z.eqb_neq. exact H.
  - intro Hopen. split; intro H.
    + apply (Hcap true Hopen). apply Z.eqb_eq. exact H.
    + apply (Hcap false Hopen). apply Z.eqb_neq. exact H.
  - intro o. unfold is_match. rewrite low_byte. apply Z.eqb_eq.
  - intro H. split.
    + apply (Hquit false). rewrite H. reflexivity.
    + intro Hopen. apply (Hcap false Hopen). rewrite H.
      destruct orientation; reflexivity.
Qed.

(** X2.  The four orientations are bound to four different key codes, none
    of them the quit key, all of them low bytes: a key accepted for one
    orientation is rejected for the other three and does not quit. *)
Theorem orientation_keys_are_exclusive orientation orientation' key :
  is_match orientation key = true ->
  (is_match orientation' key = true -> orientation = orientation') /\
  is_quit key = false /\
  0 <= value orientation < 256 /\
  (value orientation = value orientation' -> orientation = orientation').
Proof.
  unfold is_match, is_quit. intro H. apply Z.eqb_eq in H. rewrite H.
  split; [ | split; [ | split]].
  - destruct orientation, orientation'; simpl; intro E;
      first [reflexivity | discriminate].
  - destruct orientation; reflexivity.
  - destruct orientation; simpl; lia.
  - destruct orientation, orientation'; simpl; intro E;
      first [reflexivity | discriminate].
Qed.

(** ** Where the target is shown *)

(** X5.  The pixel painted at the centre handed to the painter is shown
    in row [y], column [x] of the frame for RIGHT and DOWN, in column
    [x - 1] for LEFT and in row [y - 1] for UP: in the two flipped
    orientations the target is displayed one pixel before the point the
    caller asked for. *)
Theorem painted_center_is_shown_at cv env W H x y circle_scale orientation
    target w :
  exists frame drawn next_scale terminated,
    create_image cv env (W, H) (x, y) circle_scale orientation target w =
    Ret (frame, next_scale, terminated) (use_random w) /\
    write_text_on_image cv env (painter_center (W, H) (x, y) orientation)
      circle_scale (painter_buffer (W, H) orientation) target w =
    Ret (terminated, drawn) (use_random w) /\
    px frame (fst (shown_center (x, y) orientation))
             (snd (shown_center (x, y) orientation)) =
    pixel_div (px drawn (snd (painter_center (W, H) (x, y) orientation))
                        (fst (painter_center (W, H) (x, y) orientation)))
              255.
Proof.
  destruct (create_image_run cv env (W, H) (x, y) circle_scale orientation
              target w) as [frame [Hrun [_ Hpx]]].
  eexists frame, _, _, _.
  split; [exact Hrun | split; [apply write_text_on_image_run | ]].
  rewrite Hpx. destruct orientation; cbn [shown_center source_pixel
    painter_center fst snd]; try reflexivity.
  - replace (H - 1 - (y - 1)) with (H - y) by lia. reflexivity.
  - replace (W - 1 - (x - 1)) with (W - x) by lia. reflexivity.
Qed.

(** ** The monitor dimensions used by the session *)

(** X9.  When either [monitor_mm] or [monitor_pixels] is missing from the
    call and Gdk reports a monitor, [main] runs the session with both
    dimensions as Gdk reports them: a dimension supplied alone is
    discarded. *)
Theorem partial_override_is_discarded cv env fuel trial_fuel base_path
    monitor_mm monitor_pixels w w_mm h_mm w_pixels h_pixels :
  Py.is_None monitor_mm || Py.is_None monitor_pixels = true ->
  gdk env = Gdk_monitor w_mm h_mm w_pixels h_pixels ->
  main cv env fuel trial_fuel base_path monitor_mm monitor_pixels w =
  session_loop cv env fuel trial_fuel base_path (w_mm, h_mm)
    (w_pixels, h_pixels) empty_data
    (session_start base_path (w_mm, h_mm) (w_pixels, h_pixels) w).
Proof.
  intros Hnone Hgdk. unfold main. unfold bind at 1 2.
  cbn [perform source_next]. rewrite Hnone. unfold bind at 1 2.
  unfold get_monitor_dimensions. rewrite Hgdk. reflexivity.
Qed.

(** ** Every position can be drawn *)





(** ** The length of the animation *)

Lemma first_true (P : nat -> bool) : forall n,
  P n = true ->
  exists k, (k <= n)%nat /\ P k = true /\
            forall i, (i < k)%nat -> P i = false.
Proof.
  intro n. revert P. induction n as [ | n IH]; intros P Hn.
  - exists O. split; [lia | split; [exact Hn | intros i Hi; lia]].
  - destruct (P O) eqn:E0.
    + exists O. split; [lia | split; [exact E0 | intros i Hi; lia]].
    + destruct (IH (fun i => P (S i)) Hn) as (k & Hk & Hpk & Hbelow).
      exists (S k). split; [lia | split; [exact Hpk | ]].
      intros i Hi. destruct i as [ | i]; [exact E0 | apply Hbelow; lia].
Qed.

Lemma Py_lt_false_iff (x y : Q) : Py.lt x y = false <-> (y <= x)%Q.
Proof.
  unfold Py.lt. rewrite negb_false_iff. apply Qle_bool_iff.
Qed.

Lemma decayed_at_least_half (i : nat) :
  (i < 7)%nat -> ((1 # 2) <= decayed i 1)%Q.
Proof.
  intro Hi. do 7 (destruct i as [ | i]; [vm_compute; discriminate | ]). lia.
Qed.

Lemma decayed_22_below_tenth : (decayed 22 1 < (1 # 10))%Q.
Proof. vm_compute. reflexivity. Qed.

(** With draws in the range of [random.random()], the first frame whose
    draw ends the animation is one of the frames 7 to 22 (counted
    from 0). *)
Lemma termination_frame env base :
  (forall i, (i < 23)%nat ->
     (0 <= script_random env (base + i))%Q /\
     (script_random env (base + i) < 1)%Q) ->
  exists k, (7 <= k <= 22)%nat /\
    (forall i, (i < k)%nat ->
       Py.lt (decayed i 1) (threshold (script_random env (base + i))) = false) /\
    Py.lt (decayed k 1) (threshold (script_random env (base + k))) = true.
Proof.
  intro Hrange.
  set (P := fun i => Py.lt (decayed i 1)
                           (threshold (script_random env (base + i)))).
  assert (H22 : P 22%nat = true).
  { unfold P. apply Py_lt_iff.
    destruct (Hrange 22%nat ltac:(lia)) as [H0 H1].
    destruct (uniform_threshold_range _ H0 H1) as [Hlo _].
    eapply Qlt_le_trans; [exact decayed_22_below_tenth | exact Hlo]. }
  destruct (first_true P 22 H22) as (k & Hk & Hpk & Hbelow).
  exists k. split; [ | split; [exact Hbelow | exact Hpk]].
  split; [ | exact Hk].
  destruct (Nat.lt_ge_cases k 7) as [Hlt | Hge]; [ | exact Hge].
  exfalso. unfold P in Hpk. apply Py_lt_iff in Hpk.
  destruct (Hrange k ltac:(lia)) as [H0 H1].
  destruct (uniform_threshold_range _ H0 H1) as [_ Hhi].
  pose proof (decayed_at_least_half k Hlt) as Hhalf.
  apply (Qlt_irrefl (1 # 2)).
  eapply Qle_lt_trans; [exact Hhalf | ].
  eapply Qlt_trans; [exact Hpk | exact Hhi].
Qed.

(** X3.  The animation has a hard frame cap.  When the draws are in the
    range of [random.random()] and no poll reads the quit key, the
    animation loop started with the shrink factor 1 returns after at least
    8 and at most 23 frames: the threshold is at most 0.5, which the
    shrink factor is under from the eighth frame on, and at least 0.1,
    which the shrink factor is under on the twenty-third.  Fuel for 23
    rounds is always enough. *)
Theorem animation_ends_within_8_to_23_frames cv env fuel window_name
    monitor_pixels center orientation w :
  (23 <= fuel)%nat ->
  (forall i, (i < 23)%nat ->
     (0 <= script_random env (n_random w + i))%Q /\
     (script_random env (n_random w + i) < 1)%Q) ->
  (forall i, (i < 230)%nat ->
     is_quit (script_waitKey env (n_waitKey w + i)) = false) ->
  exists frames w1 shown,
    (8 <= frames <= 23)%nat /\
    animation_loop cv env fuel window_name monitor_pixels center orientation
      1 false w = Ret (decayed frames 1, true) w1 /\
    trace w1 = (trace w ++ shown)%list /\
    List.length shown = frames /\ Forall is_ImShow shown /\
    n_random w1 = (n_random w + frames)%nat /\
    n_waitKey w1 = (n_waitKey w + 10 * frames)%nat.
Proof.
  intros Hfuel Hrange Hno.
  destruct (termination_frame env (n_random w) Hrange)
    as (k & Hk & Hbelow & Hend).
  destruct (animation_loop_returns cv env window_name monitor_pixels center
              orientation k fuel 1%Q w)
    as (w1 & shown & Hret & Ht & Hlen & Hall & Hkeys & Hr & _);
    [lia | exact Hbelow | exact Hend | intros i Hi; apply Hno; lia | ].
  exists (S k), w1, shown.
  split; [lia | ].
  split; [exact Hret | ].
  repeat split; assumption.
Qed.

(** ** A trial nobody confirms *)



(** ** What a trial leaves behind *)

Lemma csv_writes_app t1 t2 :
  csv_writes (t1 ++ t2) = (csv_writes t1 ++ csv_writes t2)%list.
Proof.
  induction t1 as [ | e t1 IH]; [reflexivity | ].
  destruct e; simpl; rewrite IH; reflexivity.
Qed.

Lemma poll_for_quit_SysExit env n w w' :
  poll_for_quit env n w = SysExit w' ->
  exists j, (j < n)%nat /\
    w' = emit DestroyAllWindows (after_polls (S j) w) /\
    is_quit (script_waitKey env (n_waitKey w + j)) = true.
Proof.
  revert w. induction n as [ | n IH]; intros w H; [discriminate | ].
  cbn [poll_for_quit] in H. unfold bind at 1 in H.
  unfold cv2_waitKey at 1 in H.
  destruct (Z.land _ 255 =? _) eqn:E.
  - exists O. split; [lia | ]. rewrite Nat.add_0_r.
    cbv [bind cv2_destroyAllWindows perform sys_exit] in H.
    split; [simpl; congruence | exact E].
  - apply IH in H. destruct H as (j & Hj & Hw & Hq).
    exists (S j). split; [lia | split; [exact Hw | ]].
    replace (n_waitKey w + S j)%nat with (n_waitKey (use_waitKey w) + j)%nat
      by (simpl; lia).
    exact Hq.
Qed.

(** The animation writes no file and no table, whether it returns or ends
    the process; when it ends the process, the last key read was the quit
    key and the last thing done was to destroy the windows. *)
Lemma animation_loop_outcome cv env fuel window_name monitor_pixels center
    orientation :
  forall circle_scale e w w',
    (forall r,
       animation_loop cv env fuel window_name monitor_pixels center
         orientation circle_scale e w = Ret r w' ->
       imwrites (trace w') = imwrites (trace w) /\
       csv_writes (trace w') = csv_writes (trace w)) /\
    (animation_loop cv env fuel window_name monitor_pixels center
       orientation circle_scale e w = SysExit w' ->
     imwrites (trace w') = imwrites (trace w) /\
     csv_writes (trace w') = csv_writes (trace w) /\
     (exists t, trace w' = (t ++ [DestroyAllWindows])%list) /\
     exists p, n_waitKey w' = S p /\ is_quit (script_waitKey env p) = true).
Proof.
  induction fuel as [ | fuel IH]; intros circle_scale e w w'.
  - destruct e; simpl; split; intros; try discriminate.
    unfold ret in H. injection H as _ <-. split; reflexivity.
  - destruct e.
    { simpl; split; intros; try discriminate.
      unfold ret in H. injection H as _ <-. split; reflexivity. }
    destruct (animation_loop_step cv env fuel window_name monitor_pixels
                center orientation circle_scale w) as [frame [_ Hstep]].
    rewrite Hstep. clear Hstep.
    set (w1 := emit (ImShow window_name frame) (use_random w)).
    assert (Hw1 : imwrites (trace w1) = imwrites (trace w) /\
                  csv_writes (trace w1) = csv_writes (trace w)).
    { subst w1. simpl. rewrite imwrites_app, csv_writes_app. simpl.
      rewrite !app_nil_r. split; reflexivity. }
    destruct Hw1 as [Hi1 Hc1].
    split.
    + intros r H. apply bind_Ret in H. destruct H as [u [w2 [Hp H]]].
      apply poll_for_quit_Ret in Hp. subst w2.
      apply (proj1 (IH _ _ _ _)) in H. destruct H as [Hi Hc].
      destruct (after_polls_fields 10 w1) as (_ & _ & _ & _ & _ & _ & F7).
      rewrite Hi, Hc, F7. split; assumption.
    + intro H. apply bind_SysExit in H.
      destruct H as [H | [u [w2 [Hp H]]]].
      * apply poll_for_quit_SysExit in H.
        destruct H as (j & Hj & Hw & Hq). subst w'.
        destruct (after_polls_fields (S j) w1)
          as (_ & _ & F3 & _ & _ & _ & F7).
        cbn [emit trace n_waitKey]. rewrite F3, F7.
        rewrite imwrites_app, csv_writes_app. simpl. rewrite !app_nil_r.
        split; [exact Hi1 | split; [exact Hc1 | split]].
        -- exists (trace w1). reflexivity.
        -- exists (n_waitKey w + j)%nat. split; [lia | exact Hq].
      * apply poll_for_quit_Ret in Hp. subst w2.
        apply (proj2 (IH _ _ _ _)) in H.
        destruct H as (Hi & Hc & Ht & Hq).
        destruct (after_polls_fields 10 w1) as (_ & _ & _ & _ & _ & _ & F7).
        rewrite Hi, Hc, F7. repeat split; assumption.
Qed.

(** A capture is always the answer to the bound key, read while the window
    was open. *)
Lemma capture_loop_Some env fuel base_path file_name orientation start w t w' :
  capture_loop env fuel base_path file_name orientation start w =
  Ret (Some t) w' ->
  exists n,
    n_waitKey w' = (n_waitKey w + n + 1)%nat /\
    is_match orientation (script_waitKey env (n_waitKey w + n)) = true /\
    window_open start (script_time env (n_time w + n)) = true /\
    (forall i, (i < n)%nat ->
       is_match orientation (script_waitKey env (n_waitKey w + i)) = false) /\
    t = (script_time env (n_time w + n + 1) - start)%Q.
Proof.
  revert w. induction fuel as [ | fuel IH]; intros w H;
    cbn [capture_loop] in H; unfold bind at 1 in H;
    unfold time_time at 1 in H;
    destruct (Py.lt _ (1 # 2)) eqn:Eopen; try discriminate.
  unfold bind at 1 in H. unfold cv2_waitKey at 1 in H.
  change (n_waitKey (use_time w)) with (n_waitKey w) in H.
  destruct (Z.land _ 255 =? _) eqn:Ekey.
  - cbv [bind source_clear_frame_buffer perform source_next cv2_imwrite
         time_time ret] in H.
    injection H as <- <-. exists O. rewrite !Nat.add_0_r.
    split; [simpl; lia | ].
    split; [exact Ekey | split; [exact Eopen | ]].
    split; [intros i Hi; lia | ].
    simpl. rewrite Nat.add_1_r. reflexivity.
  - apply IH in H. destruct H as (n & Hk & Hm & Ho & Hno & Ht).
    simpl n_waitKey in *. simpl n_time in *.
    exists (S n). split; [lia | ].
    replace (n_waitKey w + S n)%nat with (S (n_waitKey w) + n)%nat by lia.
    replace (n_time w + S n)%nat with (S (n_time w) + n)%nat by lia.
    split; [exact Hm | split; [exact Ho | split]].
    + intros i Hi. destruct i as [ | i].
      * rewrite Nat.add_0_r. exact Ekey.
      * replace (n_waitKey w + S i)%nat with (S (n_waitKey w) + i)%nat by lia.
        apply Hno. lia.
    + exact Ht.
Qed.

(** The files and tables after a trial that returned. *)
Lemma show_point_on_screen_Ret cv env fuel window_name base_path
    monitor_pixels w file_name center time_till_capture w' :
  show_point_on_screen cv env fuel window_name base_path monitor_pixels w =
  Ret (file_name, center, time_till_capture) w' ->
  let row_name := script_strftime env (n_strftime w) ++ ".jpg" in
  file_name = Some row_name /\
  csv_writes (trace w') = csv_writes (trace w) /\
  imwrites (trace w') =
  (imwrites (trace w) ++
   match time_till_capture with
   | Some _ => [image_path base_path row_name]
   | None => []
   end)%list /\
  exists p, n_waitKey w' = S p.
Proof.
  rewrite show_point_on_screen_phases. intros H row_name.
  apply bind_Ret in H. destruct H as [[s e] [w1 [Ha H]]].
  pose proof (animation_loop_flag _ _ _ _ _ _ _ _ _ _ _ _ _ Ha) as He.
  subst e. cbn [snd] in H.
  destruct (animation_loop_leaves_camera _ _ _ _ _ _ _ _ _ _ _ _ Ha)
    as (_ & _ & _ & _ & A5 & _).
  destruct (proj1 (animation_loop_outcome cv env fuel window_name
                     monitor_pixels _ _ _ _ _ _) _ Ha) as [Ai Ac].
  simpl in A5, Ai, Ac.
  apply bind_Ret in H. destruct H as [[f t] [w2 [Hc H]]].
  rewrite capture_window_run in Hc. apply bind_Ret in Hc.
  destruct Hc as [t' [w3 [Hl Hc]]]. unfold ret in Hc.
  injection Hc as <- <- <-.
  rewrite finish_trial_run in H. cbn [fst snd Py.format] in H.
  injection H as <- <- <- <-.
  split; [unfold row_name; rewrite A5; reflexivity | ].
  apply capture_loop_Ret in Hl.
  cbn [trace n_waitKey use_waitKey emit].
  rewrite imwrites_app, csv_writes_app. simpl. rewrite !app_nil_r.
  destruct Hl as [_ [(Hn & Ht & _) | (t & Hs & Ht & _)]]; subst t';
    rewrite Ht; simpl.
  - rewrite app_nil_r. split; [exact Ac | split; [exact Ai | eexists; reflexivity]].
  - rewrite imwrites_app, csv_writes_app. simpl. rewrite app_nil_r, Ai, Ac.
    unfold row_name, image_path. rewrite A5.
    split; [reflexivity | split; [reflexivity | eexists; reflexivity]].
Qed.

(** The files and tables after a trial that ended the process. *)
Lemma show_point_on_screen_SysExit cv env fuel window_name base_path
    monitor_pixels w w' :
  show_point_on_screen cv env fuel window_name base_path monitor_pixels w =
  SysExit w' ->
  imwrites (trace w') = imwrites (trace w) /\
  csv_writes (trace w') = csv_writes (trace w) /\
  (exists t, trace w' = (t ++ [DestroyAllWindows])%list) /\
  exists p, n_waitKey w' = S p /\ is_quit (script_waitKey env p) = true.
Proof.
  rewrite show_point_on_screen_phases. intro H.
  apply bind_SysExit in H. destruct H as [H | [[s e] [w1 [Ha H]]]].
  - apply (proj2 (animation_loop_outcome cv env fuel window_name
                    monitor_pixels _ _ _ _ _ _)) in H.
    exact H.
  - exfalso. apply animation_loop_flag in Ha. subst e. cbn [snd] in H.
    apply bind_SysExit in H. destruct H as [H | [q [w2 [_ H]]]].
    + rewrite capture_window_run in H. apply bind_SysExit in H.
      destruct H as [H | [t [w2 [_ H]]]]; [ | discriminate].
      exact (capture_loop_never_exits _ _ _ _ _ _ _ _ H).
    + rewrite finish_trial_run in H. discriminate.
Qed.

(** X7.  A trial never captures unasked: when it returns a
    [time_till_capture], the last key read in the capture window was the
    key of the trial's orientation and the window was open at the clock
    reading before it; the time returned is the next clock reading minus
    the reading at which the window opened, and exactly one image file was
    written, under the file name the trial returns. *)
Theorem capture_needs_the_bound_key cv env fuel window_name base_path
    monitor_pixels w file_name center t w' :
  show_point_on_screen cv env fuel window_name base_path monitor_pixels w =
  Ret (file_name, center, Some t) w' ->
  let row_name := script_strftime env (n_strftime w) ++ ".jpg" in
  let start := script_time env (n_time w) in
  file_name = Some row_name /\
  imwrites (trace w') =
  (imwrites (trace w) ++ [image_path base_path row_name])%list /\
  exists p c,
    n_waitKey w' = S (S p) /\
    is_match (setup_orientation env w) (script_waitKey env p) = true /\
    window_open start (script_time env c) = true /\
    t = (script_time env (S c) - start)%Q.
Proof.
  intros H row_name start.
  destruct (show_point_on_screen_Ret _ _ _ _ _ _ _ _ _ _ _ H)
    as (Hname & _ & Hfiles & _).
  split; [exact Hname | split; [exact Hfiles | ]].
  rewrite show_point_on_screen_phases in H.
  apply bind_Ret in H. destruct H as [[s e] [w1 [Ha H]]].
  pose proof (animation_loop_flag _ _ _ _ _ _ _ _ _ _ _ _ _ Ha) as He.
  subst e. cbn [snd] in H.
  destruct (animation_loop_leaves_camera _ _ _ _ _ _ _ _ _ _ _ _ Ha)
    as (_ & _ & _ & A4 & _ & _).
  simpl in A4.
  apply bind_Ret in H. destruct H as [[f t'] [w2 [Hc H]]].
  rewrite capture_window_run in Hc. apply bind_Ret in Hc.
  destruct Hc as [t'' [w3 [Hl Hc]]]. unfold ret in Hc.
  injection Hc as <- <- <-.
  rewrite finish_trial_run in H. cbn [fst snd] in H.
  injection H as _ _ Et Ew. subst t'' w'.
  apply capture_loop_Some in Hl.
  destruct Hl as (n & Hk & Hm & Ho & _ & Ht).
  simpl n_waitKey in Hk, Hm. simpl n_time in Ho, Ht. rewrite A4 in Ho, Ht.
  exists (n_waitKey w1 + n)%nat, (S (n_time w) + n)%nat.
  cbn [n_waitKey use_waitKey emit].
  split; [lia | split; [exact Hm | split; [exact Ho | ]]].
  rewrite Ht. unfold start.
  replace (S (n_time w) + n + 1)%nat with (S (S (n_time w) + n)) by lia.
  reflexivity.
Qed.

(** ** The session *)




(** [main] either runs the session loop with some dimensions or raises
    right after the start of the webcam. *)
Lemma main_outcome cv env fuel trial_fuel base_path monitor_mm monitor_pixels
    w :
  (exists mm pixels,
     main cv env fuel trial_fuel base_path monitor_mm monitor_pixels w =
     session_loop cv env fuel trial_fuel base_path mm pixels empty_data
       (session_start base_path mm pixels w)) \/
  (exists e,
     main cv env fuel trial_fuel base_path monitor_mm monitor_pixels w =
     Raised e (emit NextFrame (use_frames (emit (Mkdir (base_path ++ "/")) w)))).
Proof.
  unfold main. unfold bind at 1 2. cbn [perform source_next].
  destruct monitor_mm as [mm | ], monitor_pixels as [pixels | ];
    cbn [Py.is_None Py.is_not_None negb orb];
    try (left; exists mm, pixels; reflexivity);
    unfold bind at 1 2; unfold get_monitor_dimensions;
    (destruct (gdk env) as [ | name | a b c d];
     [ right; eexists; reflexivity
     | right; eexists; reflexivity
     | left; exists (a, b), (c, d); reflexivity ]).
Qed.


Lemma bind_halts {A B : Type} (m : M A) (k : A -> M B) w :
  (forall w1, m w = SysExit w1 -> bind m k w = SysExit w1) /\
  (forall e w1, m w = Raised e w1 -> bind m k w = Raised e w1) /\
  (m w = OutOfFuel -> bind m k w = OutOfFuel).
Proof.
  unfold bind. repeat split; intros; rewrite H; reflexivity.
Qed.

Lemma session_loop_stops_on_quit cv env trial_fuel base_path mm pixels :
  forall fuel d w w',
    (exists u, session_loop cv env fuel trial_fuel base_path mm pixels d w =
               Ret u w') \/
    session_loop cv env fuel trial_fuel base_path mm pixels d w = SysExit w' ->
    (exists t, trace w' = (t ++ [DestroyAllWindows])%list) /\
    exists p, n_waitKey w' = S p /\ is_quit (script_waitKey env p) = true.
Proof.
  induction fuel as [ | fuel IH]; intros d w w' H.
  - destruct H as [[u H] | H]; discriminate H.
  - cbn [session_loop] in H.
    destruct (show_point_on_screen cv env trial_fuel WINDOW_NAME base_path
                pixels w) as [[[f c] t] w1 | w1 | e w1 | ] eqn:E;
      [ rewrite !(bind_step _ _ _ _ _ E) in H
      | rewrite !(proj1 (bind_halts _ _ _) _ E) in H
      | rewrite !(proj1 (proj2 (bind_halts _ _ _)) _ _ E) in H
      | rewrite !(proj2 (proj2 (bind_halts _ _ _)) E) in H ].
    + assert (Hstep : forall d1 w2,
                (exists u,
                   (key <- cv2_waitKey env 500 ;;
                    if Z.land key 255 =? Py.ord "q"
                    then cv2_destroyAllWindows ;; ret tt
                    else session_loop cv env fuel trial_fuel base_path mm
                           pixels d1) w2 = Ret u w') \/
                (key <- cv2_waitKey env 500 ;;
                 if Z.land key 255 =? Py.ord "q"
                 then cv2_destroyAllWindows ;; ret tt
                 else session_loop cv env fuel trial_fuel base_path mm
                        pixels d1) w2 = SysExit w' ->
                (exists t, trace w' = (t ++ [DestroyAllWindows])%list) /\
                exists p, n_waitKey w' = S p /\
                          is_quit (script_waitKey env p) = true).
      { intros d1 w2 Hr. cbv [bind cv2_waitKey] in Hr.
        destruct (Z.land (script_waitKey env (n_waitKey w2)) 255
                  =? Py.ord "q") eqn:Eq.
        - destruct Hr as [[u Hr] | Hr];
            cbv [cv2_destroyAllWindows perform ret] in Hr;
            [ | discriminate Hr].
          injection Hr as _ <-. simpl.
          split; [eexists; reflexivity | ].
          exists (n_waitKey w2). split; [reflexivity | exact Eq].
        - apply (IH d1 (use_waitKey w2) w'). exact Hr. }
      destruct f as [s | ], t as [q | ];
        cbn [persistence_guard Py.is_not_None andb] in H.
      * apply (Hstep (append_sample d s c q mm pixels)
                 (emit (ToCsv (base_path ++ "/data.csv")
                          (append_sample d s c q mm pixels)) w1)).
        exact H.
      * apply (Hstep d w1). exact H.
      * apply (Hstep d w1). exact H.
      * apply (Hstep d w1). exact H.
    + destruct H as [[u H] | H]; [discriminate | ].
      injection H as <-.
      destruct (show_point_on_screen_SysExit _ _ _ _ _ _ _ _ E)
        as (_ & _ & Ht & Hq).
      split; assumption.
    + destruct H as [[u H] | H]; discriminate.
    + destruct H as [[u H] | H]; discriminate.
Qed.

(** X10.  The session stops for the quit key and for nothing else:
    whenever [main] returns or leaves the process, the last key read was
    the quit key and the last thing done was [cv2.destroyAllWindows()]. *)
Theorem session_stops_only_on_quit cv env fuel trial_fuel base_path
    monitor_mm monitor_pixels w w' :
  main cv env fuel trial_fuel base_path monitor_mm monitor_pixels w =
  Ret tt w' \/
  main cv env fuel trial_fuel base_path monitor_mm monitor_pixels w =
  SysExit w' ->
  (exists t, trace w' = (t ++ [DestroyAllWindows])%list) /\
  exists p, n_waitKey w' = S p /\ is_quit (script_waitKey env p) = true.
Proof.
  intro H.
  destruct (main_outcome cv env fuel trial_fuel base_path monitor_mm
              monitor_pixels w) as [(mm & pixels & E) | (e & E)];
    rewrite E in H.
  - eapply session_loop_stops_on_quit.
    destruct H as [H | H]; [left; exists tt; exact H | right; exact H].
  - destruct H as [H | H]; discriminate.
Qed.

(** * The further properties at concrete inputs *)

(** X2 for the right arrow. *)
Lemma orientation_keys_are_exclusive_witness :
  is_match RIGHT 83 = true /\
  (is_match RIGHT 83 = true -> RIGHT = RIGHT) /\
  is_quit 83 = false.
Proof.
  destruct (orientation_keys_are_exclusive RIGHT RIGHT 83 eq_refl)
    as (H1 & H2 & _).
  split; [reflexivity | split; [exact H1 | exact H2]].
Defined.


(** X3 on the animation of the idle scenario. *)
Lemma animation_ends_within_8_to_23_frames_witness :
  exists frames w1,
    (8 <= frames <= 23)%nat /\
    animation_loop Raster.drawing Scenario.idle 23 WINDOW_NAME
      Scenario.monitor_pixels (4, 4) RIGHT 1 false
      (after_setup initial_world) = Ret (decayed frames 1, true) w1 /\
    n_waitKey w1 = (10 * frames)%nat.
Proof.
  destruct (animation_ends_within_8_to_23_frames Raster.drawing Scenario.idle
              23 WINDOW_NAME Scenario.monitor_pixels (4, 4) RIGHT
              (after_setup initial_world))
    as (frames & w1 & shown & Hb & Hrun & _ & _ & _ & _ & Hk).
  - lia.
  - intros i Hi. split; decide_order.
  - intros i Hi. reflexivity.
  - exists frames, w1. split; [exact Hb | split; [exact Hrun | exact Hk]].
Defined.


(** X7 on the trial confirmed with the right arrow. *)
Lemma capture_needs_the_bound_key_witness :
  exists t w' p,
    show_point_on_screen Raster.drawing Scenario.right_arrow_in_window 20
      WINDOW_NAME "data" Scenario.monitor_pixels initial_world =
    Ret (Some "2021_03_04-05_06_07.jpg", (4, 4), Some t) w' /\
    imwrites (trace w') = ["data/2021_03_04-05_06_07.jpg"] /\
    n_waitKey w' = S (S p) /\
    is_match RIGHT (script_waitKey Scenario.right_arrow_in_window p) = true.
Proof.
  assert (E : exists t w',
    show_point_on_screen Raster.drawing Scenario.right_arrow_in_window 20
      WINDOW_NAME "data" Scenario.monitor_pixels initial_world =
    Ret (Some "2021_03_04-05_06_07.jpg", (4, 4), Some t) w')
    by (eexists _, _; vm_compute; reflexivity).
  destruct E as (t & w' & E).
  destruct (capture_needs_the_bound_key _ _ _ _ _ _ _ _ _ _ _ E)
    as (_ & Hfiles & p & c & Hk & Hm & _).
  exists t, w', p.
  split; [exact E | split; [exact Hfiles | split; [exact Hk | exact Hm]]].
Defined.

(** X9 when only [monitor_mm] is supplied and Gdk reports 340 by 190 mm
    and 16 by 8 pixels. *)
Lemma partial_override_is_discarded_witness :
  main Raster.drawing Session.capture_then_quit 1 20 "data" (Some (1, 1)) None
    initial_world =
  session_loop Raster.drawing Session.capture_then_quit 1 20 "data"
    (340, 190) (16, 8) empty_data
    (session_start "data" (340, 190) (16, 8) initial_world).
Proof.
  exact (partial_override_is_discarded Raster.drawing
           Session.capture_then_quit 1 20 "data" (Some (1, 1)) None
           initial_world 340 190 16 8 eq_refl eq_refl).
Defined.


(** X10 on the same session. *)
Lemma session_stops_only_on_quit_witness :
  exists w' p,
    main Raster.drawing Session.capture_then_quit 1 20 "data" None None
      initial_world = Ret tt w' /\
    n_waitKey w' = S p /\
    is_quit (script_waitKey Session.capture_then_quit p) = true.
Proof.
  assert (E : exists w',
    main Raster.drawing Session.capture_then_quit 1 20 "data" None None
      initial_world = Ret tt w')
    by (eexists; vm_compute; reflexivity).
  destruct E as (w' & E).
  destruct (session_stops_only_on_quit _ _ _ _ _ _ _ _ _ (or_introl E))
    as (_ & p & Hk & Hq).
  exists w', p. split; [exact E | split; [exact Hk | exact Hq]].
Defined.
